(** * Makoy store backend: a shallow embedding of [backend/server.py]

    The service is a set of FastAPI route handlers over one MongoDB
    database.  Each handler is embedded as a computation in a small
    state-and-exception monad over the database, and the properties of
    the wallet (top-up approval, purchase), of registration and of the
    admin guard are proved about these computations.

    How the code is read:
    - a collection is the list of its documents in insertion order, the
      order in which a query without a sort returns them; the [_id]
      MongoDB adds is left out, as the models ignore it;
    - a Python [float] and a BSON double are IEEE binary64 values, Rocq's
      primitive floats: [$inc] is their addition, [<] their comparison;
    - [str] is [string], [datetime] a number of seconds, [Optional] is
      [option], and [HTTPException(status_code, detail)] is raised
      through the monad, the writes made before it staying in place;
    - what a request reads from outside the database, the identifier
      [uuid.uuid4()] yields, the clock and the password context, is an
      explicit environment with one clock reading per request;
    - a bearer token is either a string [jwt.decode] rejects or claims
      signed with a key; a signature verifies when the keys agree and
      the token is valid until its [exp]. *)

From Stdlib Require Import String List ZArith Bool Floats QArith Lia.
From Stdlib Require Import DecimalString.
Import ListNotations.

Set Warnings "-inexact-float".
Set Implicit Arguments.

Local Close Scope Q_scope.
Local Open Scope string_scope.
Local Open Scope list_scope.

(** ** The document store *)

(** The five calls the handlers make on a [motor] collection.  A query is
    the predicate its filter document denotes; documents come back in
    insertion order. *)
Module Mongo.
Section Collection.
Variable D : Type.

Definition find_one (q : D -> bool) (c : list D) : option D :=
  List.find q c.

Definition find (q : D -> bool) (c : list D) : list D :=
  List.filter q c.

Definition to_list (length : nat) (cursor : list D) : list D :=
  List.firstn length cursor.

Definition insert_one (d : D) (c : list D) : list D :=
  c ++ [d].

(** [update_one] changes the first document the filter matches and
    nothing when none matches. *)
Fixpoint update_one (q : D -> bool) (upd : D -> D) (c : list D) : list D :=
  match c with
  | [] => []
  | d :: c' => if q d then upd d :: c' else d :: update_one q upd c'
  end.
End Collection.
End Mongo.

(** ** Models *)

(** [datetime] values are seconds on the UTC clock. *)
Definition datetime := Z.
Bind Scope Z_scope with datetime.

Module User.
Record t := Build {
  id : string;
  email : string;
  username : string;
  password_hash : string;
  is_admin : bool;
  wallet_balance : float;
  created_at : datetime
}.

(** [{"$inc": {"wallet_balance": delta}}] *)
Definition inc_wallet_balance (delta : float) (u : t) : t :=
  Build (id u) (email u) (username u) (password_hash u) (is_admin u)
        (wallet_balance u + delta)%float (created_at u).
End User.

Module UserCreate.
Record t := Build {
  email : string;
  username : string;
  password : string;
  is_admin : bool
}.
End UserCreate.

Module UserLogin.
Record t := Build {
  email : string;
  password : string
}.
End UserLogin.

Module Product.
Record t := Build {
  id : string;
  name : string;
  description : string;
  price : float;
  image_url : string;
  category : string;
  is_active : bool;
  created_at : datetime
}.
End Product.

Module ProductCreate.
Record t := Build {
  name : string;
  description : string;
  price : float;
  image_url : string;
  category : string
}.
End ProductCreate.

Module TopUpRequest.
Record t := Build {
  id : string;
  user_id : string;
  amount : float;
  receipt_data : string;
  status : string;
  created_at : datetime;
  processed_at : option datetime;
  admin_notes : option string
}.

(** [{"$set": {"status": .., "processed_at": .., "admin_notes": ..}}] *)
Definition set_processed (st : string) (at_ : datetime)
    (notes : option string) (r : t) : t :=
  Build (id r) (user_id r) (amount r) (receipt_data r)
        st (created_at r) (Some at_) notes.
End TopUpRequest.

Module TopUpCreate.
Record t := Build {
  amount : float;
  receipt_data : string
}.
End TopUpCreate.

Module Purchase.
Record t := Build {
  id : string;
  user_id : string;
  product_id : string;
  product_name : string;
  amount : float;
  created_at : datetime
}.
End Purchase.

Module SupportTicket.
Record t := Build {
  id : string;
  user_id : string;
  subject : string;
  message : string;
  status : string;
  created_at : datetime;
  responses : list (list (string * string))
}.
End SupportTicket.

Module TicketCreate.
Record t := Build {
  subject : string;
  message : string
}.
End TicketCreate.

Module BlogPost.
Record t := Build {
  id : string;
  title : string;
  content : string;
  author_id : string;
  created_at : datetime;
  is_published : bool
}.
End BlogPost.

Module BlogPostCreate.
Record t := Build {
  title : string;
  content : string
}.
End BlogPostCreate.

(** The database [db]: one collection per model. *)
Record Database := mkDatabase {
  users : list User.t;
  products : list Product.t;
  topup_requests : list TopUpRequest.t;
  purchases : list Purchase.t;
  tickets : list SupportTicket.t;
  blog_posts : list BlogPost.t
}.

Definition empty_db : Database := mkDatabase [] [] [] [] [] [].

Definition set_users (f : list User.t -> list User.t) (db : Database) :=
  mkDatabase (f (users db)) (products db) (topup_requests db)
             (purchases db) (tickets db) (blog_posts db).
Definition set_products (f : list Product.t -> list Product.t) (db : Database) :=
  mkDatabase (users db) (f (products db)) (topup_requests db)
             (purchases db) (tickets db) (blog_posts db).
Definition set_topup_requests
    (f : list TopUpRequest.t -> list TopUpRequest.t) (db : Database) :=
  mkDatabase (users db) (products db) (f (topup_requests db))
             (purchases db) (tickets db) (blog_posts db).
Definition set_purchases (f : list Purchase.t -> list Purchase.t) (db : Database) :=
  mkDatabase (users db) (products db) (topup_requests db)
             (f (purchases db)) (tickets db) (blog_posts db).
Definition set_tickets
    (f : list SupportTicket.t -> list SupportTicket.t) (db : Database) :=
  mkDatabase (users db) (products db) (topup_requests db)
             (purchases db) (f (tickets db)) (blog_posts db).
Definition set_blog_posts (f : list BlogPost.t -> list BlogPost.t) (db : Database) :=
  mkDatabase (users db) (products db) (topup_requests db)
             (purchases db) (tickets db) (f (blog_posts db)).

(** ** Handlers as computations *)

Record HTTPException := mkHTTPException {
  status_code : Z;
  detail : string
}.

Inductive outcome (A : Type) : Type :=
| Return (a : A)
| Raise (e : HTTPException).
Arguments Return {A} a.
Arguments Raise {A} e.

(** A handler runs against the database and leaves it as its writes made
    it, also when it raises: no transaction undoes a write. *)
Definition handler (A : Type) : Type := Database -> outcome A * Database.

Definition ret {A} (a : A) : handler A := fun db => (Return a, db).
Definition raise {A} (code : Z) (msg : string) : handler A :=
  fun db => (Raise (mkHTTPException code msg), db).
Definition bind {A B} (m : handler A) (k : A -> handler B) : handler B :=
  fun db =>
    match m db with
    | (Return a, db') => k a db'
    | (Raise e, db') => (Raise e, db')
    end.
Definition query {A} (f : Database -> A) : handler A :=
  fun db => (Return (f db), db).
Definition update_db (f : Database -> Database) : handler unit :=
  fun db => (Return tt, f db).

Declare Scope handler_scope.
Delimit Scope handler_scope with handler.
Notation "x <- m ;; k" := (bind m (fun x => k))
  (at level 61, m at next level, right associativity) : handler_scope.
Notation "m ;;; k" := (bind m (fun _ => k))
  (at level 61, right associativity) : handler_scope.
Local Open Scope handler_scope.

(** ** What a request reads from outside the database *)

(** One value of each per request: the identifier [uuid.uuid4()] yields,
    the reading of [datetime.utcnow()], and passlib's [pwd_context]. *)
Record Env := mkEnv {
  uuid4 : string;
  utcnow : datetime;
  pwd_hash : string -> string;
  pwd_verify : string -> string -> bool
}.

(** ** Security *)

Definition SECRET_KEY : string := "your-secret-key-here-change-in-production".

(** A token's claims, and a bearer credential: either a string that is
    no token at all, or claims signed with some key. *)
Record Claims := mkClaims {
  sub : option string;
  exp : datetime
}.

Inductive token : Type :=
| Malformed (raw : string)
| Signed (key : string) (claims : Claims).

Definition jwt_encode (claims : Claims) (key : string) : token :=
  Signed key claims.

(** [jwt.decode] fails ([PyJWTError]) on a string that is no token, on a
    signature made with another key, and on an expired token. *)
Definition jwt_decode (now : datetime) (tok : token) (key : string)
  : option Claims :=
  match tok with
  | Malformed _ => None
  | Signed k claims =>
      if (k =? key)%string && (now <? exp claims)%Z then Some claims else None
  end.

Definition hours (n : Z) : Z := (n * 3600)%Z.

Definition create_access_token (env : Env) (subject : string) : token :=
  jwt_encode (mkClaims (Some subject) (utcnow env + hours 24)%Z) SECRET_KEY.

Definition verify_password (env : Env) (plain hashed : string) : bool :=
  pwd_verify env plain hashed.

Definition hash_password (env : Env) (password : string) : string :=
  pwd_hash env password.

(** ** Documents the handlers create

    Each model fills [id] from [uuid.uuid4()] and [created_at] from
    [datetime.utcnow()]; the other defaults are those of the class. *)

(** The [User] built from the body, the password replaced by its hash. *)
Definition new_user (env : Env) (body : UserCreate.t) : User.t :=
  User.Build (uuid4 env) (UserCreate.email body) (UserCreate.username body)
             (hash_password env (UserCreate.password body))
             (UserCreate.is_admin body) 0%float (utcnow env).

(** The [Product] built from the body. *)
Definition new_product (env : Env) (body : ProductCreate.t) : Product.t :=
  Product.Build (uuid4 env) (ProductCreate.name body)
                (ProductCreate.description body) (ProductCreate.price body)
                (ProductCreate.image_url body) (ProductCreate.category body)
                true (utcnow env).

(** The [TopUpRequest] built from the body for [user_id=current_user.id]. *)
Definition new_topup_request (env : Env) (user_id : string)
    (body : TopUpCreate.t) : TopUpRequest.t :=
  TopUpRequest.Build (uuid4 env) user_id (TopUpCreate.amount body)
                     (TopUpCreate.receipt_data body) "pending" (utcnow env)
                     None None.

(** [Purchase(user_id=.., product_id=.., product_name=.., amount=..)] *)
Definition new_purchase (env : Env) (user_id product_id product_name : string)
    (amount : float) : Purchase.t :=
  Purchase.Build (uuid4 env) user_id product_id product_name amount (utcnow env).

(** The [SupportTicket] built from the body for [user_id=current_user.id]. *)
Definition new_ticket (env : Env) (user_id : string) (body : TicketCreate.t)
  : SupportTicket.t :=
  SupportTicket.Build (uuid4 env) user_id (TicketCreate.subject body)
                      (TicketCreate.message body) "open" (utcnow env) [].

(** The [BlogPost] built from the body for [author_id=admin_user.id]. *)
Definition new_blog_post (env : Env) (author_id : string)
    (body : BlogPostCreate.t) : BlogPost.t :=
  BlogPost.Build (uuid4 env) (BlogPostCreate.title body)
                 (BlogPostCreate.content body) author_id (utcnow env) true.

(** ** Authentication *)

Definition by_email (e : string) (u : User.t) : bool := (User.email u =? e)%string.
Definition by_id (i : string) (u : User.t) : bool := (User.id u =? i)%string.

Definition get_current_user (env : Env) (credentials : token) : handler User.t :=
  match jwt_decode (utcnow env) credentials SECRET_KEY with
  | None => raise 401 "Could not validate credentials"
  | Some payload =>
      match sub payload with
      | None => raise 401 "Could not validate credentials"
      | Some email =>
          user <- query (fun db => Mongo.find_one (by_email email) (users db)) ;;
          match user with
          | None => raise 401 "Could not validate credentials"
          | Some user => ret user
          end
      end
  end.

Definition get_admin_user (env : Env) (credentials : token) : handler User.t :=
  current_user <- get_current_user env credentials ;;
  if negb (User.is_admin current_user)
  then raise 403 "Admin access required"
  else ret current_user.

(** ** Auth endpoints *)

Record UserInfo := mkUserInfo {
  info_id : string;
  info_email : string;
  info_username : string;
  info_is_admin : bool;
  info_wallet_balance : float
}.

Definition user_info (u : User.t) : UserInfo :=
  mkUserInfo (User.id u) (User.email u) (User.username u)
             (User.is_admin u) (User.wallet_balance u).

Record AuthResponse := mkAuthResponse {
  access_token : token;
  token_type : string;
  user : UserInfo
}.

(** [POST /register] *)
Definition register (env : Env) (user : UserCreate.t) : handler AuthResponse :=
  existing_user <-
    query (fun db => Mongo.find_one (by_email (UserCreate.email user)) (users db)) ;;
  match existing_user with
  | Some _ => raise 400 "Email already registered"
  | None =>
      let user_obj := new_user env user in
      update_db (set_users (Mongo.insert_one user_obj)) ;;;
      ret (mkAuthResponse (create_access_token env (User.email user_obj))
                          "bearer" (user_info user_obj))
  end.

(** [POST /login] *)
Definition login (env : Env) (user : UserLogin.t) : handler AuthResponse :=
  db_user <-
    query (fun db => Mongo.find_one (by_email (UserLogin.email user)) (users db)) ;;
  match db_user with
  | None => raise 401 "Incorrect email or password"
  | Some db_user =>
      if negb (verify_password env (UserLogin.password user)
                               (User.password_hash db_user))
      then raise 401 "Incorrect email or password"
      else ret (mkAuthResponse (create_access_token env (UserLogin.email user))
                               "bearer" (user_info db_user))
  end.

(** [GET /me] *)
Definition get_me (env : Env) (credentials : token) : handler UserInfo :=
  current_user <- get_current_user env credentials ;;
  ret (user_info current_user).

(** ** Product endpoints *)

(** [GET /products] *)
Definition get_products : handler (list Product.t) :=
  query (fun db => Mongo.to_list 100 (Mongo.find Product.is_active (products db))).

(** [POST /products] *)
Definition create_product (env : Env) (product : ProductCreate.t)
    (credentials : token) : handler Product.t :=
  _admin_user <- get_admin_user env credentials ;;
  let product_obj := new_product env product in
  update_db (set_products (Mongo.insert_one product_obj)) ;;;
  ret product_obj.

Definition product_by_id (i : string) (p : Product.t) : bool :=
  (Product.id p =? i)%string.

(** [GET /products/{product_id}] *)
Definition get_product (product_id : string) : handler Product.t :=
  product <- query (fun db => Mongo.find_one (product_by_id product_id) (products db)) ;;
  match product with
  | None => raise 404 "Product not found"
  | Some product => ret product
  end.

(** ** Wallet endpoints *)

Definition request_by_id (i : string) (r : TopUpRequest.t) : bool :=
  (TopUpRequest.id r =? i)%string.
Definition request_by_user (i : string) (r : TopUpRequest.t) : bool :=
  (TopUpRequest.user_id r =? i)%string.

(** [POST /topup] *)
Definition request_topup (env : Env) (topup : TopUpCreate.t)
    (credentials : token) : handler (string * string) :=
  current_user <- get_current_user env credentials ;;
  let topup_obj := new_topup_request env (User.id current_user) topup in
  update_db (set_topup_requests (Mongo.insert_one topup_obj)) ;;;
  ret ("Top-up request submitted successfully", TopUpRequest.id topup_obj).

(** [GET /topup-requests] *)
Definition get_user_topup_requests (env : Env) (credentials : token)
  : handler (list TopUpRequest.t) :=
  current_user <- get_current_user env credentials ;;
  query (fun db =>
    Mongo.to_list 100
      (Mongo.find (request_by_user (User.id current_user)) (topup_requests db))).

(** [GET /admin/topup-requests] *)
Definition get_all_topup_requests (env : Env) (credentials : token)
  : handler (list TopUpRequest.t) :=
  _admin_user <- get_admin_user env credentials ;;
  query (fun db => Mongo.to_list 100 (Mongo.find (fun _ => true) (topup_requests db))).

(** [POST /admin/topup-requests/{request_id}/approve] *)
Definition approve_topup (env : Env) (request_id : string)
    (admin_notes : option string) (credentials : token) : handler string :=
  _admin_user <- get_admin_user env credentials ;;
  request <-
    query (fun db => Mongo.find_one (request_by_id request_id) (topup_requests db)) ;;
  match request with
  | None => raise 404 "Request not found"
  | Some request =>
      if negb (TopUpRequest.status request =? "pending")%string
      then raise 400 "Request already processed"
      else
        update_db (set_users
          (Mongo.update_one (by_id (TopUpRequest.user_id request))
             (User.inc_wallet_balance (TopUpRequest.amount request)))) ;;;
        update_db (set_topup_requests
          (Mongo.update_one (request_by_id request_id)
             (TopUpRequest.set_processed "approved" (utcnow env) admin_notes))) ;;;
        ret "Top-up approved successfully"
  end.

(** [POST /admin/topup-requests/{request_id}/reject]: [admin_notes] is a
    string here, empty by default. *)
Definition reject_topup (env : Env) (request_id : string)
    (admin_notes : string) (credentials : token) : handler string :=
  _admin_user <- get_admin_user env credentials ;;
  request <-
    query (fun db => Mongo.find_one (request_by_id request_id) (topup_requests db)) ;;
  match request with
  | None => raise 404 "Request not found"
  | Some request =>
      if negb (TopUpRequest.status request =? "pending")%string
      then raise 400 "Request already processed"
      else
        update_db (set_topup_requests
          (Mongo.update_one (request_by_id request_id)
             (TopUpRequest.set_processed "rejected" (utcnow env) (Some admin_notes)))) ;;;
        ret "Top-up rejected"
  end.

(** ** Purchase endpoints *)

Definition purchase_by_user (i : string) (p : Purchase.t) : bool :=
  (Purchase.user_id p =? i)%string.

(** [POST /purchase/{product_id}] *)
Definition purchase_product (env : Env) (product_id : string)
    (credentials : token) : handler (string * string) :=
  current_user <- get_current_user env credentials ;;
  product <- query (fun db => Mongo.find_one (product_by_id product_id) (products db)) ;;
  match product with
  | None => raise 404 "Product not found"
  | Some product =>
      if (User.wallet_balance current_user <? Product.price product)%float
      then raise 400 "Insufficient wallet balance"
      else
        update_db (set_users
          (Mongo.update_one (by_id (User.id current_user))
             (User.inc_wallet_balance (- Product.price product)%float))) ;;;
        let purchase :=
          new_purchase env (User.id current_user) product_id
                       (Product.name product) (Product.price product) in
        update_db (set_purchases (Mongo.insert_one purchase)) ;;;
        ret ("Purchase successful", Purchase.id purchase)
  end.

(** [GET /purchases] *)
Definition get_user_purchases (env : Env) (credentials : token)
  : handler (list Purchase.t) :=
  current_user <- get_current_user env credentials ;;
  query (fun db =>
    Mongo.to_list 100
      (Mongo.find (purchase_by_user (User.id current_user)) (purchases db))).

(** ** Support ticket endpoints *)

Definition ticket_by_user (i : string) (t : SupportTicket.t) : bool :=
  (SupportTicket.user_id t =? i)%string.

(** [POST /tickets] *)
Definition create_ticket (env : Env) (ticket : TicketCreate.t)
    (credentials : token) : handler SupportTicket.t :=
  current_user <- get_current_user env credentials ;;
  let ticket_obj := new_ticket env (User.id current_user) ticket in
  update_db (set_tickets (Mongo.insert_one ticket_obj)) ;;;
  ret ticket_obj.

(** [GET /tickets] *)
Definition get_user_tickets (env : Env) (credentials : token)
  : handler (list SupportTicket.t) :=
  current_user <- get_current_user env credentials ;;
  query (fun db =>
    Mongo.to_list 100
      (Mongo.find (ticket_by_user (User.id current_user)) (tickets db))).

(** ** Blog endpoints *)

(** [GET /blog] *)
Definition get_blog_posts : handler (list BlogPost.t) :=
  query (fun db => Mongo.to_list 100 (Mongo.find BlogPost.is_published (blog_posts db))).

(** [POST /blog] *)
Definition create_blog_post (env : Env) (post : BlogPostCreate.t)
    (credentials : token) : handler BlogPost.t :=
  admin_user <- get_admin_user env credentials ;;
  let post_obj := new_blog_post env (User.id admin_user) post in
  update_db (set_blog_posts (Mongo.insert_one post_obj)) ;;;
  ret post_obj.

Definition post_by_id (i : string) (p : BlogPost.t) : bool :=
  (BlogPost.id p =? i)%string.

(** [GET /blog/{post_id}] *)
Definition get_blog_post (post_id : string) : handler BlogPost.t :=
  post <- query (fun db => Mongo.find_one (post_by_id post_id) (blog_posts db)) ;;
  match post with
  | None => raise 404 "Blog post not found"
  | Some post => ret post
  end.

(** ** Responses the properties name *)

Definition unauthorized : HTTPException :=
  mkHTTPException 401 "Could not validate credentials".
Definition forbidden : HTTPException :=
  mkHTTPException 403 "Admin access required".
Definition email_taken : HTTPException :=
  mkHTTPException 400 "Email already registered".
Definition already_processed : HTTPException :=
  mkHTTPException 400 "Request already processed".
Definition insufficient_balance : HTTPException :=
  mkHTTPException 400 "Insufficient wallet balance".

(** The caller a credential authenticates as against a database. *)
Definition authenticates (env : Env) (credentials : token) (db : Database)
    (u : User.t) : Prop :=
  get_current_user env credentials db = (Return u, db).

(** The document the store answers with for an identifier. *)
Definition stored_user (db : Database) (user_id : string) (u : User.t) : Prop :=
  Mongo.find_one (by_id user_id) (users db) = Some u.
Definition stored_product (db : Database) (product_id : string)
    (p : Product.t) : Prop :=
  Mongo.find_one (product_by_id product_id) (products db) = Some p.
Definition stored_request (db : Database) (request_id : string)
    (r : TopUpRequest.t) : Prop :=
  Mongo.find_one (request_by_id request_id) (topup_requests db) = Some r.

(** ** The service as a transition system *)

(** One constructor per route of [api_router]. *)
Inductive Request : Type :=
| PostRegister (user : UserCreate.t)
| PostLogin (user : UserLogin.t)
| GetMe (credentials : token)
| GetProducts
| PostProducts (product : ProductCreate.t) (credentials : token)
| GetProduct (product_id : string)
| PostTopup (topup : TopUpCreate.t) (credentials : token)
| GetTopupRequests (credentials : token)
| GetAdminTopupRequests (credentials : token)
| PostApprove (request_id : string) (admin_notes : option string)
    (credentials : token)
| PostReject (request_id : string) (admin_notes : string) (credentials : token)
| PostPurchase (product_id : string) (credentials : token)
| GetPurchases (credentials : token)
| PostTickets (ticket : TicketCreate.t) (credentials : token)
| GetTickets (credentials : token)
| GetBlog
| PostBlog (post : BlogPostCreate.t) (credentials : token)
| GetBlogPost (post_id : string).

(** The database a request leaves behind. *)
Definition serve (env : Env) (req : Request) (db : Database) : Database :=
  match req with
  | PostRegister user => snd (register env user db)
  | PostLogin user => snd (login env user db)
  | GetMe c => snd (get_me env c db)
  | GetProducts => snd (get_products db)
  | PostProducts product c => snd (create_product env product c db)
  | GetProduct product_id => snd (get_product product_id db)
  | PostTopup topup c => snd (request_topup env topup c db)
  | GetTopupRequests c => snd (get_user_topup_requests env c db)
  | GetAdminTopupRequests c => snd (get_all_topup_requests env c db)
  | PostApprove request_id notes c => snd (approve_topup env request_id notes c db)
  | PostReject request_id notes c => snd (reject_topup env request_id notes c db)
  | PostPurchase product_id c => snd (purchase_product env product_id c db)
  | GetPurchases c => snd (get_user_purchases env c db)
  | PostTickets ticket c => snd (create_ticket env ticket c db)
  | GetTickets c => snd (get_user_tickets env c db)
  | GetBlog => snd (get_blog_posts db)
  | PostBlog post c => snd (create_blog_post env post c db)
  | GetBlogPost post_id => snd (get_blog_post post_id db)
  end.

(** Requests served one after the other, each with its own environment. *)
Fixpoint run (trace : list (Env * Request)) (db : Database) : Database :=
  match trace with
  | [] => db
  | (env, req) :: rest => run rest (serve env req db)
  end.

(** ** The wallet ledger *)

(** The two kinds of write that touch a wallet or a request's status. *)
Definition credit_wallet (user_id : string) (delta : float)
  : Database -> Database :=
  set_users (Mongo.update_one (by_id user_id) (User.inc_wallet_balance delta)).

Definition mark_processed (request_id st : string) (now : datetime)
    (notes : option string) : Database -> Database :=
  set_topup_requests
    (Mongo.update_one (request_by_id request_id)
       (TopUpRequest.set_processed st now notes)).

(** What a request writes.  [writes env db req db'] lists, per route,
    the databases the handler can leave and what the store must hold
    for it; [serve] is shown below to stay within it. *)
Inductive writes (env : Env) (db : Database) : Request -> Database -> Prop :=
| writes_nothing req :
    writes env db req db
| writes_user body :
    Mongo.find_one (by_email (UserCreate.email body)) (users db) = None ->
    writes env db (PostRegister body)
      (set_users (Mongo.insert_one (new_user env body)) db)
| writes_product body c :
    writes env db (PostProducts body c)
      (set_products (Mongo.insert_one (new_product env body)) db)
| writes_request body c u :
    authenticates env c db u ->
    writes env db (PostTopup body c)
      (set_topup_requests
         (Mongo.insert_one (new_topup_request env (User.id u) body)) db)
| writes_approval request_id notes c r :
    stored_request db request_id r ->
    TopUpRequest.status r = "pending" ->
    fst (approve_topup env request_id notes c db)
      = Return "Top-up approved successfully" ->
    writes env db (PostApprove request_id notes c)
      (mark_processed request_id "approved" (utcnow env) notes
         (credit_wallet (TopUpRequest.user_id r) (TopUpRequest.amount r) db))
| writes_rejection request_id notes c r :
    stored_request db request_id r ->
    TopUpRequest.status r = "pending" ->
    writes env db (PostReject request_id notes c)
      (mark_processed request_id "rejected" (utcnow env) (Some notes) db)
| writes_purchase product_id c u p :
    authenticates env c db u ->
    stored_product db product_id p ->
    (User.wallet_balance u <? Product.price p)%float = false ->
    writes env db (PostPurchase product_id c)
      (set_purchases
         (Mongo.insert_one
            (new_purchase env (User.id u) product_id (Product.name p)
               (Product.price p)))
         (credit_wallet (User.id u) (- Product.price p)%float db))
| writes_ticket body c u :
    writes env db (PostTickets body c)
      (set_tickets (Mongo.insert_one (new_ticket env (User.id u) body)) db)
| writes_post body c u :
    writes env db (PostBlog body c)
      (set_blog_posts (Mongo.insert_one (new_blog_post env (User.id u) body)) db).

(** The rational number a finite binary64 value stands for. *)
Definition float_value (x : float) : option Q :=
  match Prim2SF x with
  | S754_zero _ => Some 0%Q
  | S754_finite s m e =>
      Some ((if s then -1 else 1) * inject_Z (Z.pos m) * 2 ^ e)%Q
  | S754_infinity _ | S754_nan => None
  end.

Definition value (x : float) : Q :=
  match float_value x with Some q => q | None => 0%Q end.

(** A float addition is exact when its operands and its result are
    finite and the result is the sum. *)
Definition exact_add (x y : float) : bool :=
  match float_value x, float_value y, float_value (x + y)%float with
  | Some a, Some b, Some c => Qeq_bool (a + b) c
  | _, _, _ => false
  end.

Definition is_approved (user_id : string) (r : TopUpRequest.t) : bool :=
  request_by_user user_id r && (TopUpRequest.status r =? "approved")%string.

(** The amounts of a user's approved top-up requests and of their
    purchase records. *)
Definition approved_amounts (user_id : string) (db : Database) : list float :=
  map TopUpRequest.amount (Mongo.find (is_approved user_id) (topup_requests db)).

Definition purchase_amounts (user_id : string) (db : Database) : list float :=
  map Purchase.amount (Mongo.find (purchase_by_user user_id) (purchases db)).

(** Sums as numbers, and as Python's [sum] over floats computes them. *)
Definition total (amounts : list float) : Q :=
  fold_right (fun x acc => value x + acc)%Q 0%Q amounts.

Definition float_sum (amounts : list float) : float :=
  fold_left PrimFloat.add amounts 0%float.

Definition ledger_balance (user_id : string) (db : Database) : Q :=
  (total (approved_amounts user_id db) - total (purchase_amounts user_id db))%Q.

Definition float_ledger_balance (user_id : string) (db : Database) : float :=
  (float_sum (approved_amounts user_id db)
   - float_sum (purchase_amounts user_id db))%float.

(** The wallet and the amount a request adds to it: [approve_topup] and
    [purchase_product], when they return, make one [$inc] each. *)
Definition posting (env : Env) (req : Request) (db : Database)
  : option (string * float) :=
  match req with
  | PostApprove request_id notes c =>
      match approve_topup env request_id notes c db with
      | (Return _, _) =>
          option_map
            (fun r => (TopUpRequest.user_id r, TopUpRequest.amount r))
            (Mongo.find_one (request_by_id request_id) (topup_requests db))
      | (Raise _, _) => None
      end
  | PostPurchase product_id c =>
      match purchase_product env product_id c db with
      | (Return _, _) =>
          match get_current_user env c db,
                Mongo.find_one (product_by_id product_id) (products db) with
          | (Return u, _), Some p => Some (User.id u, (- Product.price p)%float)
          | _, _ => None
          end
      | (Raise _, _) => None
      end
  | _ => None
  end.

(** The request's [$inc], if it makes one, does not round. *)
Definition exact_posting (env : Env) (req : Request) (db : Database) : bool :=
  match posting env req db with
  | Some (user_id, delta) =>
      match Mongo.find_one (by_id user_id) (users db) with
      | Some u => exact_add (User.wallet_balance u) delta
      | None => true
      end
  | None => true
  end.

(** A registration draws an identifier no stored user has. *)
Definition fresh_uuid (env : Env) (req : Request) (db : Database) : bool :=
  match req with
  | PostRegister _ => negb (existsb (by_id (uuid4 env)) (users db))
  | _ => true
  end.

Fixpoint fresh_ids (trace : list (Env * Request)) (db : Database) : bool :=
  match trace with
  | [] => true
  | (env, req) :: rest =>
      fresh_uuid env req db && fresh_ids rest (serve env req db)
  end.

Fixpoint no_rounding (trace : list (Env * Request)) (db : Database) : bool :=
  match trace with
  | [] => true
  | (env, req) :: rest =>
      exact_posting env req db && no_rounding rest (serve env req db)
  end.

(** What the store maintains: user identifiers are unique, and every
    request and purchase record names a stored user. *)
Record store_ok (db : Database) : Prop := mk_store_ok {
  ids_unique : NoDup (map User.id (users db));
  requests_owned :
    forall r, In r (topup_requests db) ->
      In (TopUpRequest.user_id r) (map User.id (users db));
  purchases_owned :
    forall p, In p (purchases db) ->
      In (Purchase.user_id p) (map User.id (users db))
}.

(** Every balance is the finite number the ledger gives. *)
Definition balances_match (db : Database) : Prop :=
  forall u, In u (users db) ->
    exists q, float_value (User.wallet_balance u) = Some q /\
              (q == ledger_balance (User.id u) db)%Q.

Definition ledger_ok (db : Database) : Prop :=
  store_ok db /\ balances_match db.

(** ** A sample deployment *)

(** The [n]-th request of a sample run reads the identifier [id-n], the
    clock at [n] seconds, and a password context that only tags. *)
Definition sample_env (n : nat) : Env :=
  mkEnv ("id-" ++ NilEmpty.string_of_uint (Nat.to_uint n))%string (Z.of_nat n)
        (fun password => "hashed:" ++ password)%string
        (fun plain hashed => hashed =? "hashed:" ++ plain)%string.

Definition root_body : UserCreate.t :=
  UserCreate.Build "root@makoy.shop" "root" "s3cret" true.
Definition bob_body : UserCreate.t :=
  UserCreate.Build "bob@example.org" "bob" "hunter2" false.

Definition root_token : token := create_access_token (sample_env 0) "root@makoy.shop".
Definition bob_token : token := create_access_token (sample_env 1) "bob@example.org".

Definition ebook (price : float) : ProductCreate.t :=
  ProductCreate.Build "E-book" "A short read" price "https://makoy.shop/e.png" "Digital".

(** An administrator and a customer register, the administrator lists a
    product at [price] (it gets [id-2]), the customer asks for a top-up
    of [amount] (request [id-3]). *)
Definition opening (price amount : float) : list (Env * Request) :=
  [ (sample_env 0, PostRegister root_body);
    (sample_env 1, PostRegister bob_body);
    (sample_env 2, PostProducts (ebook price) root_token);
    (sample_env 3, PostTopup (TopUpCreate.Build amount "receipt.png") bob_token) ].

Definition db_pending : Database := run (opening 1%float 50%float) empty_db.

Definition db_funded : Database :=
  serve (sample_env 4) (PostApprove "id-3" None root_token) db_pending.

(** [n] purchases of the product [id-2] by the customer, as requests
    number [k], [k+1], ... *)
Fixpoint purchases_from (k n : nat) : list (Env * Request) :=
  match n with
  | O => []
  | S n' => (sample_env k, PostPurchase "id-2" bob_token) :: purchases_from (S k) n'
  end.

(** The database after the customer's wallet was funded with 200.0 and
    the customer bought the product a hundred times. *)
Definition db_hundred : Database :=
  run (opening 1%float 200%float
         ++ (sample_env 4, PostApprove "id-3" None root_token)
         :: purchases_from 5 100)
      empty_db.

Definition bob_funded : User.t :=
  User.Build "id-1" "bob@example.org" "bob" "hashed:hunter2" false 50%float 1.

Definition root_user : User.t :=
  User.Build "id-0" "root@makoy.shop" "root" "hashed:s3cret" true 0%float 0.

(** The product of the sample deployment, and the same taken off the
    shelf by an operator writing [is_active] in the database (no route
    does). *)
Definition ebook_listed : Product.t :=
  Product.Build "id-2" "E-book" "A short read" 1%float
                "https://makoy.shop/e.png" "Digital" true 2.
Definition ebook_shelved : Product.t :=
  Product.Build "id-2" "E-book" "A short read" 1%float
                "https://makoy.shop/e.png" "Digital" false 2.
Definition db_shelved : Database :=
  set_products (fun _ => [ebook_shelved]) db_funded.

Definition bob_pending : User.t :=
  User.Build "id-1" "bob@example.org" "bob" "hashed:hunter2" false 0%float 1.

Definition bob_hundred : User.t :=
  User.Build "id-1" "bob@example.org" "bob" "hashed:hunter2" false 100%float 1.

Definition topup_pending : TopUpRequest.t :=
  TopUpRequest.Build "id-3" "id-1" 50%float "receipt.png" "pending" 3 None None.

Definition topup_approved : TopUpRequest.t :=
  TopUpRequest.Build "id-3" "id-1" 50%float "receipt.png" "approved" 3
                     (Some 4%Z) None.

(** The customer tops up 0.5, buys a product at 0.2, tops up 0.1; both
    top-ups are approved as they come. *)
Definition rounding_trace : list (Env * Request) :=
  opening 0.2%float 0.5%float ++
  [ (sample_env 4, PostApprove "id-3" None root_token);
    (sample_env 5, PostPurchase "id-2" bob_token);
    (sample_env 6, PostTopup (TopUpCreate.Build 0.1%float "receipt.png") bob_token);
    (sample_env 7, PostApprove "id-6" (Some "ok") root_token) ].

(** The same day with amounts that binary64 holds exactly. *)
Definition exact_trace : list (Env * Request) :=
  opening 12.5%float 50%float ++
  [ (sample_env 4, PostApprove "id-3" None root_token);
    (sample_env 5, PostPurchase "id-2" bob_token);
    (sample_env 6, PostTopup (TopUpCreate.Build 0.25%float "receipt.png") bob_token);
    (sample_env 7, PostApprove "id-6" (Some "ok") root_token);
    (sample_env 8, PostReject "id-6" "twice" root_token);
    (sample_env 9, PostPurchase "id-2" bob_token) ].

(** The record of the customer's hundred-and-first purchase, made as
    request number 105. *)
Definition purchase_101 : Purchase.t :=
  new_purchase (sample_env 105) "id-1" "id-2" "E-book" 1%float.

Definition db_hundred_one : Database :=
  serve (sample_env 105) (PostPurchase "id-2" bob_token) db_hundred.

(** The customer as stored at the end of [rounding_trace] and of
    [exact_trace]. *)
Definition bob_rounded : User.t :=
  User.Build "id-1" "bob@example.org" "bob" "hashed:hunter2" false 0.4%float 1.

Definition bob_settled : User.t :=
  User.Build "id-1" "bob@example.org" "bob" "hashed:hunter2" false 25.25%float 1.

(** Unfolds the monad's operations, to run a handler on a database. *)
Ltac run_handler :=
  unfold bind, ret, raise, query, update_db in *; simpl in *.

(** The sample deployment before the customer asks for a top-up. *)
Definition db_registered : Database :=
  run (firstn 3 (opening 1%float 50%float)) empty_db.

(** ** What a client sees of a request *)

Definition raised (A : Type) (r : outcome A * Database) : option HTTPException :=
  match fst r with
  | Return _ => None
  | Raise e => Some e
  end.

(** The exception a request ends with, when its handler raises. *)
Definition failure (env : Env) (req : Request) (db : Database)
  : option HTTPException :=
  match req with
  | PostRegister user => raised (register env user db)
  | PostLogin user => raised (login env user db)
  | GetMe c => raised (get_me env c db)
  | GetProducts => raised (get_products db)
  | PostProducts product c => raised (create_product env product c db)
  | GetProduct product_id => raised (get_product product_id db)
  | PostTopup topup c => raised (request_topup env topup c db)
  | GetTopupRequests c => raised (get_user_topup_requests env c db)
  | GetAdminTopupRequests c => raised (get_all_topup_requests env c db)
  | PostApprove request_id notes c =>
      raised (approve_topup env request_id notes c db)
  | PostReject request_id notes c =>
      raised (reject_topup env request_id notes c db)
  | PostPurchase product_id c => raised (purchase_product env product_id c db)
  | GetPurchases c => raised (get_user_purchases env c db)
  | PostTickets ticket c => raised (create_ticket env ticket c db)
  | GetTickets c => raised (get_user_tickets env c db)
  | GetBlog => raised (get_blog_posts db)
  | PostBlog post c => raised (create_blog_post env post c db)
  | GetBlogPost post_id => raised (get_blog_post post_id db)
  end.

(** A handler's result on [db] that, if it is an exception, carries one
    of the four status codes the service uses and left [db] as it was. *)
Definition clean_failure (A : Type) (db : Database)
    (r : outcome A * Database) : Prop :=
  match r with
  | (Return _, _) => True
  | (Raise e, db') =>
      db' = db /\ In (status_code e) [400%Z; 401%Z; 403%Z; 404%Z]
  end.

(** What registration fixes of a user, and submission of a request. *)
Definition identity_of (u : User.t)
  : string * string * string * string * bool * datetime :=
  (User.id u, User.email u, User.username u, User.password_hash u,
   User.is_admin u, User.created_at u).

Definition submission_of (r : TopUpRequest.t)
  : string * string * float * string * datetime :=
  (TopUpRequest.id r, TopUpRequest.user_id r, TopUpRequest.amount r,
   TopUpRequest.receipt_data r, TopUpRequest.created_at r).

(** The three states of a top-up request. *)
Definition request_state_ok (r : TopUpRequest.t) : Prop :=
  (TopUpRequest.status r = "pending" /\
   TopUpRequest.processed_at r = None /\ TopUpRequest.admin_notes r = None) \/
  (TopUpRequest.status r = "approved" /\
   exists t, TopUpRequest.processed_at r = Some t) \/
  (TopUpRequest.status r = "rejected" /\
   (exists t, TopUpRequest.processed_at r = Some t) /\
   exists n, TopUpRequest.admin_notes r = Some n).

(** [l'] is [l] with documents added at the end. *)
Definition extends (A : Type) (l l' : list A) : Prop :=
  exists added, l' = l ++ added.

(** The defaults of the models that no route can set otherwise. *)
Definition defaults_kept (db : Database) : Prop :=
  (forall p, In p (products db) -> Product.is_active p = true) /\
  (forall p, In p (blog_posts db) -> BlogPost.is_published p = true) /\
  (forall t, In t (tickets db) ->
     SupportTicket.status t = "open" /\ SupportTicket.responses t = []).

(** The same environment read 24 hours later. *)
Definition day_later (env : Env) : Env :=
  mkEnv (uuid4 env) (utcnow env + 86400)%Z (pwd_hash env) (pwd_verify env).

(** A wallet so large that binary64 no longer tells it from its
    neighbours: the customer is funded with 2^53 = 9007199254740992.0
    and asks for a further 1.0 (request [id-5]). *)
Definition large_trace : list (Env * Request) :=
  opening 1%float 9007199254740992%float ++
  [ (sample_env 4, PostApprove "id-3" None root_token);
    (sample_env 5, PostTopup (TopUpCreate.Build 1%float "receipt.png") bob_token) ].

Definition db_large : Database := run large_trace empty_db.

Definition bob_large : User.t :=
  User.Build "id-1" "bob@example.org" "bob" "hashed:hunter2" false
             9007199254740992%float 1.

Definition topup_one : TopUpRequest.t :=
  TopUpRequest.Build "id-5" "id-1" 1%float "receipt.png" "pending" 5 None None.

(** The customer funded with 1e17, where neighbouring binary64 values
    are 16 apart, before buying the product at 1.0. *)
Definition db_wealthy : Database :=
  run (opening 1%float 100000000000000000%float ++
       [ (sample_env 4, PostApprove "id-3" None root_token) ])
      empty_db.

Definition bob_wealthy : User.t :=
  User.Build "id-1" "bob@example.org" "bob" "hashed:hunter2" false
             100000000000000000%float 1.

(** * Properties *)

(** ** Facts about collections *)

Section CollectionFacts.
Variable D : Type.
Implicit Types (q : D -> bool) (c : list D) (d : D).

Lemma find_one_some q c d :
  Mongo.find_one q c = Some d -> In d c /\ q d = true.
Proof. apply find_some. Qed.

Lemma find_one_found q c d :
  In d c -> q d = true -> exists d', Mongo.find_one q c = Some d'.
Proof.
  intros Hin Hq. destruct (Mongo.find_one q c) as [d'|] eqn:E.
  - now exists d'.
  - unfold Mongo.find_one in E. rewrite (find_none q c E d Hin) in Hq.
    discriminate.
Qed.

Lemma find_one_insert_one q d c :
  Mongo.find_one q (Mongo.insert_one d c) =
  match Mongo.find_one q c with
  | Some x => Some x
  | None => if q d then Some d else None
  end.
Proof.
  unfold Mongo.find_one, Mongo.insert_one.
  induction c as [|x c IH]; simpl.
  - reflexivity.
  - destruct (q x); [reflexivity | exact IH].
Qed.

(** The document a filter addresses is the one [update_one] changes. *)
Lemma find_one_update_one q upd c d :
  (forall x, q (upd x) = q x) ->
  Mongo.find_one q c = Some d ->
  Mongo.find_one q (Mongo.update_one q upd c) = Some (upd d).
Proof.
  intros Hq. unfold Mongo.find_one.
  induction c as [|x c IH]; simpl; [discriminate|].
  destruct (q x) eqn:E; simpl.
  - intros [= ->]. now rewrite Hq, E.
  - rewrite E. exact IH.
Qed.

(** A filter that the update does not affect and that selects none of
    the documents [q] selects sees the collection unchanged. *)
Lemma find_one_update_one_other q q' upd c :
  (forall x, q x = true -> q' x = false) ->
  (forall x, q' (upd x) = q' x) ->
  Mongo.find_one q' (Mongo.update_one q upd c) = Mongo.find_one q' c.
Proof.
  intros Hdisj Hq'. unfold Mongo.find_one.
  induction c as [|x c IH]; simpl; [reflexivity|].
  destruct (q x) eqn:E; simpl.
  - now rewrite Hq', (Hdisj x E).
  - destruct (q' x); [reflexivity | exact IH].
Qed.

(** When [d] is both the first document [q'] selects and the first one
    [q] selects, it still is the first for [q'] after the update. *)
Lemma find_one_update_one_both q q' upd c d :
  (forall x, q' (upd x) = q' x) ->
  Mongo.find_one q' c = Some d ->
  Mongo.find_one q c = Some d ->
  Mongo.find_one q' (Mongo.update_one q upd c) = Some (upd d).
Proof.
  intros Hq'. unfold Mongo.find_one.
  induction c as [|x c IH]; simpl; [discriminate|].
  destruct (q x) eqn:Eq, (q' x) eqn:Eq'; simpl.
  - intros [= ->] _. now rewrite Hq', Eq'.
  - intros H' [= ->]. apply find_some in H' as [_ H']. congruence.
  - intros [= ->] H. apply find_some in H as [_ H]. congruence.
  - rewrite Eq'. exact IH.
Qed.

Lemma update_one_length q upd c :
  length (Mongo.update_one q upd c) = length c.
Proof.
  induction c as [|x c IH]; simpl; [reflexivity|].
  destruct (q x); simpl; congruence.
Qed.

Lemma to_list_In n c d : In d (Mongo.to_list n c) -> In d c.
Proof.
  unfold Mongo.to_list. revert c.
  induction n as [|n IH]; intros [|x c]; simpl; try contradiction.
  intros [-> | H]; [now left | right; now apply IH].
Qed.

Lemma to_list_all n c : length c <= n -> Mongo.to_list n c = c.
Proof. apply firstn_all2. Qed.

(** Documents are told apart by a key that no two share. *)
Variable key : D -> string.

Lemma find_one_unique c d :
  NoDup (map key c) -> In d c ->
  Mongo.find_one (fun x => (key x =? key d)%string) c = Some d.
Proof.
  unfold Mongo.find_one.
  induction c as [|x c IH]; simpl; [contradiction|].
  intros Hnd [-> | Hin].
  - now rewrite String.eqb_refl.
  - inversion Hnd as [|? ? Hx Hnd']; subst.
    destruct (key x =? key d)%string eqn:E.
    + apply String.eqb_eq in E. exfalso. apply Hx. rewrite E.
      now apply in_map.
    + now apply IH.
Qed.

Lemma update_one_unique k upd c :
  NoDup (map key c) ->
  Mongo.update_one (fun x => (key x =? k)%string) upd c =
  map (fun x => if (key x =? k)%string then upd x else x) c.
Proof.
  induction c as [|x c IH]; simpl; [reflexivity|].
  intros Hnd. inversion Hnd as [|? ? Hx Hnd']; subst.
  destruct (key x =? k)%string eqn:E.
  - f_equal. apply String.eqb_eq in E. subst k.
    rewrite <- (map_id c) at 1. apply map_ext_in.
    intros y Hy. destruct (key y =? key x)%string eqn:E'; [|reflexivity].
    apply String.eqb_eq in E'. exfalso. apply Hx. rewrite <- E'.
    now apply in_map.
  - f_equal. now apply IH.
Qed.
End CollectionFacts.

(** ** Running a handler *)

(** Authentication only reads. *)
Lemma get_current_user_reads env credentials db :
  snd (get_current_user env credentials db) = db.
Proof.
  unfold get_current_user.
  destruct (jwt_decode _ _ _) as [payload|]; [|reflexivity].
  destruct (sub payload) as [email|]; [|reflexivity].
  run_handler. now destruct (Mongo.find_one _ _).
Qed.

Lemma get_current_user_returns env credentials db u db' :
  get_current_user env credentials db = (Return u, db') ->
  db' = db /\
  exists claims email,
    jwt_decode (utcnow env) credentials SECRET_KEY = Some claims /\
    sub claims = Some email /\
    Mongo.find_one (by_email email) (users db) = Some u.
Proof.
  unfold get_current_user.
  destruct (jwt_decode _ _ _) as [payload|]; [|discriminate].
  destruct (sub payload) as [email|] eqn:Es; [|discriminate].
  run_handler. destruct (Mongo.find_one _ _) as [u'|] eqn:E; [|discriminate].
  intros [= -> ->]. split; [reflexivity|]. now exists payload, email.
Qed.

Lemma get_admin_user_admin env credentials db u :
  authenticates env credentials db u ->
  User.is_admin u = true ->
  get_admin_user env credentials db = (Return u, db).
Proof.
  intros Hu Ha. unfold get_admin_user, bind. rewrite Hu, Ha. reflexivity.
Qed.

(** A token signed with the service's key authenticates as the user its
    subject's email addresses, until it expires. *)
Lemma get_current_user_signed env email expiry db u :
  (utcnow env <? expiry)%Z = true ->
  Mongo.find_one (by_email email) (users db) = Some u ->
  authenticates env (Signed SECRET_KEY (mkClaims (Some email) expiry)) db u.
Proof.
  intros Hexp Hu. unfold authenticates, get_current_user, jwt_decode.
  rewrite String.eqb_refl. cbn [exp andb]. rewrite Hexp.
  cbv beta iota delta [sub bind query ret]. now rewrite Hu.
Qed.

Lemma get_admin_user_forbidden env credentials db u :
  get_current_user env credentials db = (Return u, db) ->
  User.is_admin u = false ->
  forall A (k : User.t -> handler A),
    bind (get_admin_user env credentials) k db = (Raise forbidden, db).
Proof.
  intros Hu Ha A k. unfold bind, get_admin_user, bind.
  now rewrite Hu, Ha.
Qed.

(** ** Authorization *)

(** C8: a caller who authenticates as a user without [is_admin] gets 403
    from each of the five admin routes, and the database stays as it was. *)
Theorem admin_routes_forbidden_for_non_admin env credentials db u :
  authenticates env credentials db u ->
  User.is_admin u = false ->
  (forall product,
     create_product env product credentials db = (Raise forbidden, db)) /\
  get_all_topup_requests env credentials db = (Raise forbidden, db) /\
  (forall request_id admin_notes,
     approve_topup env request_id admin_notes credentials db
     = (Raise forbidden, db)) /\
  (forall request_id admin_notes,
     reject_topup env request_id admin_notes credentials db
     = (Raise forbidden, db)) /\
  (forall post,
     create_blog_post env post credentials db = (Raise forbidden, db)).
Proof.
  intros Hu Ha.
  repeat split; intros;
    first [ unfold create_product | unfold get_all_topup_requests
          | unfold approve_topup | unfold reject_topup
          | unfold create_blog_post ];
    now apply get_admin_user_forbidden with (u := u).
Qed.

(** ** Registration *)

Lemma find_one_by_email_fresh email (us : list User.t) :
  (forall u, In u us -> User.email u <> email) ->
  Mongo.find_one (by_email email) us = None.
Proof.
  intros H. destruct (Mongo.find_one (by_email email) us) as [u|] eqn:E;
    [|reflexivity].
  apply find_one_some in E as [Hin Hq]. unfold by_email in Hq.
  apply String.eqb_eq in Hq. now elim (H u Hin).
Qed.

(** C7: registering an email some stored user already has raises 400 and
    leaves the database, so the user collection, as it was. *)
Theorem register_existing_email_rejected env body db existing :
  In existing (users db) ->
  User.email existing = UserCreate.email body ->
  register env body db = (Raise email_taken, db).
Proof.
  intros Hin He. unfold register, bind, query.
  destruct (find_one_found (by_email (UserCreate.email body)) (users db)
              existing Hin) as [u' ->].
  - unfold by_email. now apply String.eqb_eq.
  - reflexivity.
Qed.

(** C9: [register] stores the [is_admin] flag of the request body; with
    the flag set, the token it returns passes [get_admin_user] until it
    expires. *)
Theorem register_stores_supplied_is_admin env body db :
  (forall u, In u (users db) -> User.email u <> UserCreate.email body) ->
  exists resp db',
    register env body db = (Return resp, db') /\
    users db' = users db ++ [new_user env body] /\
    User.is_admin (new_user env body) = UserCreate.is_admin body /\
    info_is_admin (user resp) = UserCreate.is_admin body /\
    (UserCreate.is_admin body = true ->
     forall env', (utcnow env' < utcnow env + hours 24)%Z ->
       get_admin_user env' (access_token resp) db'
       = (Return (new_user env body), db')).
Proof.
  intros Hfresh. apply find_one_by_email_fresh in Hfresh.
  unfold register, bind, query, update_db, ret. rewrite Hfresh.
  eexists _, _. split; [reflexivity|].
  repeat split; try reflexivity.
  intros Hadm env' Hexp. apply get_admin_user_admin; [|exact Hadm].
  apply get_current_user_signed.
  - now apply Z.ltb_lt.
  - cbn [set_users users new_user User.email].
    rewrite find_one_insert_one, Hfresh.
    unfold by_email. cbn [User.email]. now rewrite String.eqb_refl.
Qed.

(** ** Floating-point comparisons *)

Lemma SFcompare_antisym x y :
  SFcompare y x = option_map CompOpp (SFcompare x y).
Proof.
  destruct x as [sx|sx| |sx mx ex], y as [sy|sy| |sy my ey]; simpl;
    try reflexivity;
    try (destruct sx; reflexivity); try (destruct sy; reflexivity);
    try (destruct sx, sy; reflexivity).
  rewrite (Z.compare_antisym ex ey).
  pose proof (Pos.compare_cont_antisym mx my Eq) as Hm. simpl in Hm.
  pose proof (Pos.compare_cont_antisym my mx Eq) as Hm'. simpl in Hm'.
  destruct sx, sy; simpl; try reflexivity;
    destruct (ex ?= ey)%Z; simpl; try reflexivity;
    f_equal; rewrite ?CompOpp_involutive;
    first [exact (eq_sym Hm) | exact Hm'].
Qed.

(** [price <= balance] rules out [balance < price]. *)
Lemma leb_not_ltb (x y : float) :
  (x <=? y)%float = true -> (y <? x)%float = false.
Proof.
  rewrite leb_spec, ltb_spec. unfold SFleb, SFltb.
  rewrite (SFcompare_antisym (Prim2SF x) (Prim2SF y)).
  destruct (SFcompare (Prim2SF x) (Prim2SF y)) as [[]|]; simpl; congruence.
Qed.

(** Adding the negated price is subtracting the price. *)
Lemma add_opp_sub (x y : float) : (x + - y)%float = (x - y)%float.
Proof.
  apply Prim2SF_inj. rewrite sub_spec, add_spec, opp_spec.
  unfold SF64sub, SF64add.
  destruct (Prim2SF x) as [sx|sx| |sx mx ex],
           (Prim2SF y) as [sy|sy| |sy my ey]; simpl; try reflexivity;
    destruct sx, sy; reflexivity.
Qed.

(** ** Products and purchases *)

Lemma bind_authenticated env credentials db u A (k : User.t -> handler A) :
  authenticates env credentials db u ->
  bind (get_current_user env credentials) k db = k u db.
Proof. intros Hu. unfold bind. now rewrite Hu. Qed.

Lemma bind_admin env credentials db u A (k : User.t -> handler A) :
  authenticates env credentials db u ->
  User.is_admin u = true ->
  bind (get_admin_user env credentials) k db = k u db.
Proof.
  intros Hu Ha. unfold bind. now rewrite (get_admin_user_admin Hu Ha).
Qed.

(** Where identifiers are unique, a stored document is the one its
    identifier addresses. *)
Lemma stored_product_unique db p :
  NoDup (map Product.id (products db)) -> In p (products db) ->
  stored_product db (Product.id p) p.
Proof. apply find_one_unique. Qed.

Lemma stored_user_unique db u :
  NoDup (map User.id (users db)) -> In u (users db) ->
  stored_user db (User.id u) u.
Proof. apply find_one_unique. Qed.

Lemma stored_request_unique db r :
  NoDup (map TopUpRequest.id (topup_requests db)) ->
  In r (topup_requests db) ->
  stored_request db (TopUpRequest.id r) r.
Proof. apply find_one_unique. Qed.

Lemma purchase_product_succeeds env credentials db u product_id product :
  authenticates env credentials db u ->
  stored_product db product_id product ->
  (User.wallet_balance u <? Product.price product)%float = false ->
  purchase_product env product_id credentials db =
  (Return ("Purchase successful", uuid4 env),
   set_purchases
     (Mongo.insert_one
        (new_purchase env (User.id u) product_id
           (Product.name product) (Product.price product)))
     (set_users
        (Mongo.update_one (by_id (User.id u))
           (User.inc_wallet_balance (- Product.price product)))
        db)).
Proof.
  intros Hu Hp Hlt. unfold purchase_product.
  rewrite (bind_authenticated _ Hu). unfold bind at 1, query.
  unfold stored_product in Hp. rewrite Hp, Hlt. reflexivity.
Qed.

Lemma purchase_product_refused env credentials db u product_id product :
  authenticates env credentials db u ->
  stored_product db product_id product ->
  (User.wallet_balance u <? Product.price product)%float = true ->
  purchase_product env product_id credentials db
  = (Raise insufficient_balance, db).
Proof.
  intros Hu Hp Hlt. unfold purchase_product.
  rewrite (bind_authenticated _ Hu). unfold bind, query.
  unfold stored_product in Hp. now rewrite Hp, Hlt.
Qed.

(** C4: with a price above the balance the purchase raises a 400, the
    caller's balance is what it was and no purchase record is added:
    the database is left untouched. *)
Theorem purchase_above_balance_rejected
    env credentials db u product_id product :
  authenticates env credentials db u ->
  stored_product db product_id product ->
  (User.wallet_balance u <? Product.price product)%float = true ->
  exists e db',
    purchase_product env product_id credentials db = (Raise e, db') /\
    status_code e = 400%Z /\
    detail e = "Insufficient wallet balance" /\
    db' = db /\
    authenticates env credentials db' u /\
    purchases db' = purchases db.
Proof.
  intros Hu Hp Hlt. exists insufficient_balance, db.
  rewrite (purchase_product_refused Hu Hp Hlt). now repeat split.
Qed.

(** C10: [get_products] lists active products only, yet a product with
    [is_active] false is returned by [get_product] and can be bought by
    a caller whose balance covers its price. *)
Theorem is_active_filters_the_listing_only db :
  (exists listing,
     get_products db = (Return listing, db) /\
     forall p, In p listing -> Product.is_active p = true) /\
  (forall product_id product,
     stored_product db product_id product ->
     Product.is_active product = false ->
     get_product product_id db = (Return product, db) /\
     forall env credentials u,
       authenticates env credentials db u ->
       (Product.price product <=? User.wallet_balance u)%float = true ->
       exists db',
         purchase_product env product_id credentials db
         = (Return ("Purchase successful", uuid4 env), db') /\
         In (new_purchase env (User.id u) product_id
               (Product.name product) (Product.price product))
            (purchases db')).
Proof.
  split.
  - eexists. split; [reflexivity|].
    intros p Hp. apply to_list_In, filter_In in Hp. tauto.
  - intros product_id product Hp _. split.
    + unfold get_product, bind, query. unfold stored_product in Hp.
      now rewrite Hp.
    + intros env credentials u Hu Hle. apply leb_not_ltb in Hle.
      rewrite (purchase_product_succeeds Hu Hp Hle).
      eexists. split; [reflexivity|].
      cbn [purchases set_purchases]. unfold Mongo.insert_one.
      apply in_or_app. right. now left.
Qed.

(** ** Every request stays within [writes] *)

Lemma get_current_user_cases env credentials db :
  (exists u, authenticates env credentials db u) \/
  (exists e, get_current_user env credentials db = (Raise e, db)).
Proof.
  pose proof (get_current_user_reads env credentials db) as Hdb.
  destruct (get_current_user env credentials db) as [[u|e] db'] eqn:E;
    simpl in Hdb; subst db'.
  - left. now exists u.
  - right. now exists e.
Qed.

Lemma get_admin_user_cases env credentials db :
  (exists u, authenticates env credentials db u /\ User.is_admin u = true /\
             get_admin_user env credentials db = (Return u, db)) \/
  (exists e, get_admin_user env credentials db = (Raise e, db)).
Proof.
  destruct (get_current_user_cases env credentials db) as [[u Hu]|[e He]].
  - destruct (User.is_admin u) eqn:Ha.
    + left. exists u. repeat split; trivial. now apply get_admin_user_admin.
    + right. exists forbidden. unfold get_admin_user, bind.
      now rewrite Hu, Ha.
  - right. exists e. unfold get_admin_user, bind. now rewrite He.
Qed.

Lemma bind_raises A B (m : handler A) (k : A -> handler B) db e db' :
  m db = (Raise e, db') -> bind m k db = (Raise e, db').
Proof. intros H. unfold bind. now rewrite H. Qed.

Lemma approve_topup_pending env request_id notes credentials db admin r :
  authenticates env credentials db admin ->
  User.is_admin admin = true ->
  stored_request db request_id r ->
  TopUpRequest.status r = "pending" ->
  approve_topup env request_id notes credentials db =
  (Return "Top-up approved successfully",
   mark_processed request_id "approved" (utcnow env) notes
     (credit_wallet (TopUpRequest.user_id r) (TopUpRequest.amount r) db)).
Proof.
  intros Hu Ha Hr Hs. unfold approve_topup.
  rewrite (bind_admin _ Hu Ha). unfold bind at 1, query.
  unfold stored_request in Hr. rewrite Hr, Hs. reflexivity.
Qed.

Lemma reject_topup_pending env request_id notes credentials db admin r :
  authenticates env credentials db admin ->
  User.is_admin admin = true ->
  stored_request db request_id r ->
  TopUpRequest.status r = "pending" ->
  reject_topup env request_id notes credentials db =
  (Return "Top-up rejected",
   mark_processed request_id "rejected" (utcnow env) (Some notes) db).
Proof.
  intros Hu Ha Hr Hs. unfold reject_topup.
  rewrite (bind_admin _ Hu Ha). unfold bind at 1, query.
  unfold stored_request in Hr. rewrite Hr, Hs. reflexivity.
Qed.

Lemma processed_request_refused (r : TopUpRequest.t) A
    (k : handler A) db :
  TopUpRequest.status r <> "pending" ->
  (if negb (TopUpRequest.status r =? "pending")%string
   then raise 400 "Request already processed" else k) db
  = (Raise already_processed, db).
Proof.
  intros Hs. destruct (TopUpRequest.status r =? "pending")%string eqn:E.
  - apply String.eqb_eq in E. contradiction.
  - reflexivity.
Qed.

Lemma serve_writes env req db : writes env db req (serve env req db).
Proof.
  destruct req as [body|body|c| |body c|pid|body c|c|c|rid notes c|rid notes c
                  |pid c|c|body c|c| |body c|pid]; unfold serve.
  - (* register *)
    unfold register, bind, query.
    destruct (Mongo.find_one _ (users db)) eqn:E; simpl.
    + constructor.
    + now constructor.
  - (* login *)
    unfold login, bind, query.
    destruct (Mongo.find_one _ (users db)) as [u|]; simpl; [|constructor].
    destruct (verify_password _ _ _); constructor.
  - unfold get_me.
    destruct (get_current_user_cases env c db) as [[u Hu]|[e He]].
    + rewrite (bind_authenticated _ Hu). constructor.
    + erewrite bind_raises by exact He. constructor.
  - constructor.
  - unfold create_product.
    destruct (get_admin_user_cases env c db) as [(u & Hu & Ha & _)|[e He]].
    + rewrite (bind_admin _ Hu Ha). constructor.
    + erewrite bind_raises by exact He. constructor.
  - unfold get_product, bind, query.
    destruct (Mongo.find_one _ (products db)); constructor.
  - unfold request_topup.
    destruct (get_current_user_cases env c db) as [[u Hu]|[e He]].
    + rewrite (bind_authenticated _ Hu). now constructor.
    + erewrite bind_raises by exact He. constructor.
  - unfold get_user_topup_requests.
    destruct (get_current_user_cases env c db) as [[u Hu]|[e He]].
    + rewrite (bind_authenticated _ Hu). constructor.
    + erewrite bind_raises by exact He. constructor.
  - unfold get_all_topup_requests.
    destruct (get_admin_user_cases env c db) as [(u & Hu & Ha & _)|[e He]].
    + rewrite (bind_admin _ Hu Ha). constructor.
    + erewrite bind_raises by exact He. constructor.
  - (* approve *)
    destruct (get_admin_user_cases env c db) as [(u & Hu & Ha & _)|[e He]].
    + destruct (Mongo.find_one (request_by_id rid) (topup_requests db))
        as [r|] eqn:Er.
      * destruct (TopUpRequest.status r =? "pending")%string eqn:Es.
        -- apply String.eqb_eq in Es.
           pose proof (approve_topup_pending notes Hu Ha Er Es) as H.
           rewrite H. apply writes_approval; trivial. now rewrite H.
        -- unfold approve_topup. rewrite (bind_admin _ Hu Ha).
           unfold bind, query. rewrite Er, Es. constructor.
      * unfold approve_topup. rewrite (bind_admin _ Hu Ha).
        unfold bind, query. rewrite Er. constructor.
    + unfold approve_topup. erewrite bind_raises by exact He. constructor.
  - (* reject *)
    destruct (get_admin_user_cases env c db) as [(u & Hu & Ha & _)|[e He]].
    + destruct (Mongo.find_one (request_by_id rid) (topup_requests db))
        as [r|] eqn:Er.
      * destruct (TopUpRequest.status r =? "pending")%string eqn:Es.
        -- apply String.eqb_eq in Es.
           rewrite (reject_topup_pending notes Hu Ha Er Es).
           now apply writes_rejection with (r := r).
        -- unfold reject_topup. rewrite (bind_admin _ Hu Ha).
           unfold bind, query. rewrite Er, Es. constructor.
      * unfold reject_topup. rewrite (bind_admin _ Hu Ha).
        unfold bind, query. rewrite Er. constructor.
    + unfold reject_topup. erewrite bind_raises by exact He. constructor.
  - (* purchase *)
    destruct (get_current_user_cases env c db) as [[u Hu]|[e He]].
    + destruct (Mongo.find_one (product_by_id pid) (products db))
        as [p|] eqn:Ep.
      * destruct (User.wallet_balance u <? Product.price p)%float eqn:El.
        -- rewrite (purchase_product_refused Hu Ep El). constructor.
        -- rewrite (purchase_product_succeeds Hu Ep El). now constructor.
      * unfold purchase_product. rewrite (bind_authenticated _ Hu).
        unfold bind, query. rewrite Ep. constructor.
    + unfold purchase_product. erewrite bind_raises by exact He. constructor.
  - unfold get_user_purchases.
    destruct (get_current_user_cases env c db) as [[u Hu]|[e He]].
    + rewrite (bind_authenticated _ Hu). constructor.
    + erewrite bind_raises by exact He. constructor.
  - unfold create_ticket.
    destruct (get_current_user_cases env c db) as [[u Hu]|[e He]].
    + rewrite (bind_authenticated _ Hu). constructor.
    + erewrite bind_raises by exact He. constructor.
  - unfold get_user_tickets.
    destruct (get_current_user_cases env c db) as [[u Hu]|[e He]].
    + rewrite (bind_authenticated _ Hu). constructor.
    + erewrite bind_raises by exact He. constructor.
  - constructor.
  - unfold create_blog_post.
    destruct (get_admin_user_cases env c db) as [(u & Hu & Ha & _)|[e He]].
    + rewrite (bind_admin _ Hu Ha). constructor.
    + erewrite bind_raises by exact He. constructor.
  - unfold get_blog_post, bind, query.
    destruct (Mongo.find_one _ (blog_posts db)); constructor.
Qed.

(** ** Top-up requests *)

Lemma set_processed_keeps_id st now notes r i :
  request_by_id i (TopUpRequest.set_processed st now notes r)
  = request_by_id i r.
Proof. reflexivity. Qed.

Lemma inc_wallet_balance_keeps_id delta u i :
  by_id i (User.inc_wallet_balance delta u) = by_id i u.
Proof. reflexivity. Qed.

Lemma inc_wallet_balance_keeps_email delta u e :
  by_email e (User.inc_wallet_balance delta u) = by_email e u.
Proof. reflexivity. Qed.

Lemma other_id_excluded (i j x : string) :
  i <> j -> (x =? j)%string = true -> (x =? i)%string = false.
Proof.
  intros Hij Hx. apply String.eqb_eq in Hx. subst x.
  apply String.eqb_neq. congruence.
Qed.

(** Marking one request leaves the request any other identifier
    addresses as it was. *)
Lemma mark_processed_other request_id st now notes db i :
  i <> request_id ->
  Mongo.find_one (request_by_id i)
    (topup_requests (mark_processed request_id st now notes db))
  = Mongo.find_one (request_by_id i) (topup_requests db).
Proof.
  intros Hi. cbn [mark_processed set_topup_requests topup_requests].
  apply find_one_update_one_other.
  - intros x. unfold request_by_id. now apply other_id_excluded.
  - intros x. apply set_processed_keeps_id.
Qed.

Lemma mark_processed_same request_id st now notes db r :
  stored_request db request_id r ->
  stored_request (mark_processed request_id st now notes db) request_id
    (TopUpRequest.set_processed st now notes r).
Proof.
  intros Hr. unfold stored_request.
  cbn [mark_processed set_topup_requests topup_requests].
  apply find_one_update_one; [|exact Hr].
  intros x. apply set_processed_keeps_id.
Qed.

(** A request that was processed stays as it is, whatever is served. *)
Lemma processed_request_kept env req db request_id r :
  stored_request db request_id r ->
  TopUpRequest.status r <> "pending" ->
  stored_request (serve env req db) request_id r.
Proof.
  intros Hr Hs. destruct (serve_writes env req db); trivial.
  - unfold stored_request in *.
    cbn [set_topup_requests topup_requests].
    now rewrite find_one_insert_one, Hr.
  - destruct (String.eqb_spec request_id request_id0) as [->|Hne].
    + unfold stored_request in *. congruence.
    + unfold stored_request. now rewrite mark_processed_other.
  - destruct (String.eqb_spec request_id request_id0) as [->|Hne].
    + unfold stored_request in *. congruence.
    + unfold stored_request. now rewrite mark_processed_other.
Qed.

(** C5: for a request whose status is no longer pending, approve and
    reject both raise 400 ("Request already processed") and write
    nothing; and no request of any kind changes it afterwards. *)
Theorem processed_topup_is_final env credentials db admin request_id request :
  authenticates env credentials db admin ->
  User.is_admin admin = true ->
  stored_request db request_id request ->
  TopUpRequest.status request <> "pending" ->
  (forall notes,
     approve_topup env request_id notes credentials db
     = (Raise already_processed, db)) /\
  (forall notes,
     reject_topup env request_id notes credentials db
     = (Raise already_processed, db)) /\
  (forall trace, stored_request (run trace db) request_id request).
Proof.
  intros Hu Ha Hr Hs. repeat split.
  - intros notes. unfold approve_topup. rewrite (bind_admin _ Hu Ha).
    unfold bind at 1, query. unfold stored_request in Hr. rewrite Hr.
    now apply processed_request_refused.
  - intros notes. unfold reject_topup. rewrite (bind_admin _ Hu Ha).
    unfold bind at 1, query. unfold stored_request in Hr. rewrite Hr.
    now apply processed_request_refused.
  - intros trace. clear Hu. revert db Hr.
    induction trace as [|[env' req] trace IH]; intros db Hr; simpl.
    + exact Hr.
    + apply IH. now apply processed_request_kept.
Qed.

(** C6: rejecting a pending request rewrites its [status],
    [processed_at] and [admin_notes] and nothing else: its other
    fields, the other requests and every other collection, the users
    with their balances among them, are as before. *)
Theorem reject_topup_sets_status_only
    env credentials db admin request_id request notes :
  authenticates env credentials db admin ->
  User.is_admin admin = true ->
  stored_request db request_id request ->
  TopUpRequest.status request = "pending" ->
  exists db',
    reject_topup env request_id notes credentials db
    = (Return "Top-up rejected", db') /\
    stored_request db' request_id
      (TopUpRequest.Build
         (TopUpRequest.id request) (TopUpRequest.user_id request)
         (TopUpRequest.amount request) (TopUpRequest.receipt_data request)
         "rejected" (TopUpRequest.created_at request)
         (Some (utcnow env)) (Some notes)) /\
    (forall i, i <> request_id ->
       Mongo.find_one (request_by_id i) (topup_requests db')
       = Mongo.find_one (request_by_id i) (topup_requests db)) /\
    length (topup_requests db') = length (topup_requests db) /\
    users db' = users db /\
    products db' = products db /\
    purchases db' = purchases db /\
    tickets db' = tickets db /\
    blog_posts db' = blog_posts db.
Proof.
  intros Hu Ha Hr Hs. eexists. split.
  - now apply reject_topup_pending with (admin := admin) (r := request).
  - split; [exact (mark_processed_same _ _ _ Hr)|].
    split; [intros i Hi; now apply mark_processed_other|].
    split; [apply update_one_length|]. now repeat split.
Qed.

(** ** Wallet updates as numbers *)

(** An exact addition adds the second operand, as a number. *)
Lemma exact_add_exactly x y :
  exact_add x y = true ->
  exists a b c,
    float_value x = Some a /\ float_value y = Some b /\
    float_value (x + y) = Some c /\ (c - a == b)%Q.
Proof.
  unfold exact_add.
  destruct (float_value x) as [a|]; [|discriminate].
  destruct (float_value y) as [b|]; [|discriminate].
  destruct (float_value (x + y)) as [c|]; [|discriminate].
  intros H. apply Qeq_bool_iff in H. exists a, b, c.
  repeat split. rewrite <- H. ring.
Qed.

Lemma float_value_opp x p :
  float_value (- x) = Some p ->
  exists q, float_value x = Some q /\ (p == - q)%Q.
Proof.
  unfold float_value. rewrite opp_spec.
  destruct (Prim2SF x) as [s|s| |s m e]; simpl; try discriminate.
  - intros [= <-]. exists 0%Q. split; [reflexivity|ring].
  - intros [= <-]. eexists. split; [reflexivity|].
    destruct s; simpl; ring.
Qed.

(** An exact addition of a negated price takes the price off. *)
Lemma exact_add_opp_exactly x y :
  exact_add x (- y) = true ->
  exists a b c,
    float_value x = Some a /\ float_value y = Some b /\
    float_value (x + - y) = Some c /\ (a - c == b)%Q.
Proof.
  intros H. apply exact_add_exactly in H.
  destruct H as (a & nb & c & Ha & Hnb & Hc & Heq).
  apply float_value_opp in Hnb as (b & Hb & Hneg).
  exists a, b, c. repeat split; trivial.
  rewrite Hneg in Heq. rewrite <- (Qopp_involutive b), <- Heq. ring.
Qed.

(** Crediting one wallet leaves the user any other identifier addresses
    as it was. *)
Lemma credit_wallet_other user_id delta db i :
  i <> user_id ->
  Mongo.find_one (by_id i) (users (credit_wallet user_id delta db))
  = Mongo.find_one (by_id i) (users db).
Proof.
  intros Hi. cbn [credit_wallet set_users users].
  apply find_one_update_one_other.
  - intros x. unfold by_id. now apply other_id_excluded.
  - intros x. apply inc_wallet_balance_keeps_id.
Qed.

Lemma credit_wallet_same user_id delta db u :
  stored_user db user_id u ->
  stored_user (credit_wallet user_id delta db) user_id
    (User.inc_wallet_balance delta u).
Proof.
  intros Hu. unfold stored_user. cbn [credit_wallet set_users users].
  apply find_one_update_one; [|exact Hu].
  intros x. apply inc_wallet_balance_keeps_id.
Qed.

(** C2, as the code has it: approving a pending request sets the wallet
    of the user it names to the binary64 sum of the balance and the
    amount, leaves every other user as stored, and marks the request
    approved with the time of the call and the note given.  When that
    addition does not round, the balance grows by exactly the amount as
    a number; a balance of 0.0 credited with 50.0 becomes 50.0. *)
Theorem approve_topup_credits_wallet
    env credentials db admin request_id request notes u :
  authenticates env credentials db admin ->
  User.is_admin admin = true ->
  stored_request db request_id request ->
  TopUpRequest.status request = "pending" ->
  stored_user db (TopUpRequest.user_id request) u ->
  exists db' u' request',
    approve_topup env request_id notes credentials db
    = (Return "Top-up approved successfully", db') /\
    stored_user db' (TopUpRequest.user_id request) u' /\
    User.wallet_balance u'
    = (User.wallet_balance u + TopUpRequest.amount request)%float /\
    (exact_add (User.wallet_balance u) (TopUpRequest.amount request) = true ->
     exists balance amount balance',
       float_value (User.wallet_balance u) = Some balance /\
       float_value (TopUpRequest.amount request) = Some amount /\
       float_value (User.wallet_balance u') = Some balance' /\
       (balance' - balance == amount)%Q) /\
    (forall i, i <> TopUpRequest.user_id request ->
       Mongo.find_one (by_id i) (users db') = Mongo.find_one (by_id i) (users db)) /\
    stored_request db' request_id request' /\
    TopUpRequest.status request' = "approved" /\
    TopUpRequest.processed_at request' = Some (utcnow env) /\
    TopUpRequest.admin_notes request' = notes /\
    TopUpRequest.amount request' = TopUpRequest.amount request /\
    TopUpRequest.user_id request' = TopUpRequest.user_id request /\
    (User.wallet_balance u = 0%float ->
     TopUpRequest.amount request = 50%float ->
     User.wallet_balance u' = 50%float).
Proof.
  intros Hadm Ha Hr Hs Hu.
  exists (mark_processed request_id "approved" (utcnow env) notes
            (credit_wallet (TopUpRequest.user_id request)
               (TopUpRequest.amount request) db)),
         (User.inc_wallet_balance (TopUpRequest.amount request) u),
         (TopUpRequest.set_processed "approved" (utcnow env) notes request).
  split; [now apply approve_topup_pending with (admin := admin)|].
  split; [exact (credit_wallet_same _ Hu)|].
  split; [reflexivity|].
  split; [intros Hexact; exact (exact_add_exactly _ _ Hexact)|].
  split; [intros i Hi; exact (credit_wallet_other _ db Hi)|].
  split; [now apply mark_processed_same|].
  repeat split.
  intros H0 H50. cbn [User.inc_wallet_balance User.wallet_balance].
  now rewrite H0, H50.
Qed.

(** C2 as stated fails on floats.  The customer's wallet holds 2^53 and
    a pending request of 1.0 is approved: the approval returns and marks
    the request, and the stored user is the one stored before, balance
    included.  The wallet did not grow by the amount. *)
Lemma approval_rounds_amount_away :
  authenticates (sample_env 6) root_token db_large root_user /\
  User.is_admin root_user = true /\
  stored_request db_large "id-5" topup_one /\
  TopUpRequest.status topup_one = "pending" /\
  stored_user db_large (TopUpRequest.user_id topup_one) bob_large /\
  (value (TopUpRequest.amount topup_one) == 1)%Q /\
  exists db' u',
    approve_topup (sample_env 6) "id-5" None root_token db_large
    = (Return "Top-up approved successfully", db') /\
    stored_user db' (TopUpRequest.user_id topup_one) u' /\
    User.wallet_balance u' = User.wallet_balance bob_large /\
    users db' = users db_large /\
    ~ (value (User.wallet_balance u') - value (User.wallet_balance bob_large)
       == value (TopUpRequest.amount topup_one))%Q.
Proof.
  split; [vm_compute; reflexivity|].
  split; [reflexivity|].
  split; [vm_compute; reflexivity|].
  split; [reflexivity|].
  split; [vm_compute; reflexivity|].
  split; [apply Qeq_bool_iff; vm_compute; reflexivity|].
  exists (serve (sample_env 6) (PostApprove "id-5" None root_token) db_large),
         bob_large.
  split; [vm_compute; reflexivity|].
  split; [vm_compute; reflexivity|].
  split; [reflexivity|].
  split; [vm_compute; reflexivity|].
  intros H. apply Qeq_bool_iff in H. vm_compute in H. discriminate.
Qed.

(** ** Purchases *)

Lemma authenticates_after env credentials db db' u u' :
  authenticates env credentials db u ->
  (forall email,
     Mongo.find_one (by_email email) (users db) = Some u ->
     Mongo.find_one (by_email email) (users db') = Some u') ->
  authenticates env credentials db' u'.
Proof.
  intros Hu Hfind. apply get_current_user_returns in Hu.
  destruct Hu as (_ & claims & email & Hdec & Hsub & Hfound).
  unfold authenticates, get_current_user. rewrite Hdec, Hsub.
  unfold bind, query. now rewrite (Hfind email Hfound).
Qed.

(** The caller whose wallet is debited still authenticates, as the
    debited user. *)
Lemma authenticates_debited env credentials db u delta :
  authenticates env credentials db u ->
  stored_user db (User.id u) u ->
  authenticates env credentials (credit_wallet (User.id u) delta db)
    (User.inc_wallet_balance delta u).
Proof.
  intros Hu Hid. apply authenticates_after with (1 := Hu).
  intros email Hfound. cbn [credit_wallet set_users users].
  apply find_one_update_one_both; trivial.
Qed.

Lemma find_insert_one_match (D : Type) (q : D -> bool) d c :
  q d = true ->
  Mongo.find q (Mongo.insert_one d c) = Mongo.find q c ++ [d].
Proof.
  intros Hq. unfold Mongo.find, Mongo.insert_one.
  rewrite filter_app. simpl. now rewrite Hq.
Qed.

Lemma find_insert_one_no_match (D : Type) (q : D -> bool) d c :
  q d = false ->
  Mongo.find q (Mongo.insert_one d c) = Mongo.find q c.
Proof.
  intros Hq. unfold Mongo.find, Mongo.insert_one.
  rewrite filter_app. simpl. rewrite Hq. apply app_nil_r.
Qed.

(** C3, as the code has it: a purchase the balance covers returns,
    sets the caller's wallet to the binary64 difference of the balance
    and the price, which is the balance less exactly the price when the
    update does not round, and appends one purchase record;
    [get_user_purchases] then returns that record when the caller had
    fewer than a hundred records before, the length to which the
    listing is cut. *)
Theorem purchase_within_balance env credentials db u product_id product :
  authenticates env credentials db u ->
  stored_user db (User.id u) u ->
  stored_product db product_id product ->
  (Product.price product <=? User.wallet_balance u)%float = true ->
  exists db' u' record,
    purchase_product env product_id credentials db
    = (Return ("Purchase successful", Purchase.id record), db') /\
    record = Purchase.Build (uuid4 env) (User.id u) product_id
               (Product.name product) (Product.price product) (utcnow env) /\
    authenticates env credentials db' u' /\
    User.wallet_balance u'
    = (User.wallet_balance u - Product.price product)%float /\
    (exact_add (User.wallet_balance u) (- Product.price product) = true ->
     exists balance price balance',
       float_value (User.wallet_balance u) = Some balance /\
       float_value (Product.price product) = Some price /\
       float_value (User.wallet_balance u') = Some balance' /\
       (balance - balance' == price)%Q) /\
    (forall i, i <> User.id u ->
       Mongo.find_one (by_id i) (users db') = Mongo.find_one (by_id i) (users db)) /\
    purchases db' = purchases db ++ [record] /\
    (length (Mongo.find (purchase_by_user (User.id u)) (purchases db)) < 100 ->
     get_user_purchases env credentials db'
     = (Return (Mongo.find (purchase_by_user (User.id u)) (purchases db)
                ++ [record]), db')).
Proof.
  intros Hu Hid Hp Hle. apply leb_not_ltb in Hle.
  exists (set_purchases
            (Mongo.insert_one
               (new_purchase env (User.id u) product_id
                  (Product.name product) (Product.price product)))
            (credit_wallet (User.id u) (- Product.price product) db)),
         (User.inc_wallet_balance (- Product.price product) u),
         (new_purchase env (User.id u) product_id
            (Product.name product) (Product.price product)).
  split; [exact (purchase_product_succeeds Hu Hp Hle)|].
  split; [reflexivity|].
  assert (Hu' : authenticates env credentials
                  (set_purchases
                     (Mongo.insert_one
                        (new_purchase env (User.id u) product_id
                           (Product.name product) (Product.price product)))
                     (credit_wallet (User.id u) (- Product.price product) db))
                  (User.inc_wallet_balance (- Product.price product) u)).
  { apply authenticates_after
      with (1 := authenticates_debited (- Product.price product) Hu Hid).
    trivial. }
  split; [exact Hu'|].
  split; [apply add_opp_sub|].
  split; [intros Hexact; exact (exact_add_opp_exactly _ _ Hexact)|].
  split; [intros i Hi; exact (credit_wallet_other _ db Hi)|].
  split; [reflexivity|].
  intros Hlen. unfold get_user_purchases.
  rewrite (bind_authenticated _ Hu'). unfold query.
  cbn [User.inc_wallet_balance User.id purchases set_purchases].
  rewrite find_insert_one_match.
  - rewrite to_list_all; [reflexivity|].
    rewrite length_app. simpl.
    cbn [credit_wallet set_users purchases]. lia.
  - unfold purchase_by_user. cbn [new_purchase Purchase.user_id].
    apply String.eqb_refl.
Qed.

(** C3 as stated fails for a caller who already has a hundred purchase
    records: the purchase succeeds and its record is stored, but the
    listing, cut at a hundred, does not return it. *)
Lemma purchase_101_not_listed :
  authenticates (sample_env 105) bob_token db_hundred bob_hundred /\
  stored_product db_hundred "id-2" ebook_listed /\
  (Product.price ebook_listed <=? User.wallet_balance bob_hundred)%float = true /\
  purchase_product (sample_env 105) "id-2" bob_token db_hundred
  = (Return ("Purchase successful", "id-105"), db_hundred_one) /\
  In purchase_101 (purchases db_hundred_one) /\
  exists listing,
    get_user_purchases (sample_env 106) bob_token db_hundred_one
    = (Return listing, db_hundred_one) /\
    length listing = 100 /\
    ~ In purchase_101 listing.
Proof.
  split; [vm_compute; reflexivity|].
  split; [vm_compute; reflexivity|].
  split; [vm_compute; reflexivity|].
  split; [vm_compute; reflexivity|].
  split.
  - apply nth_error_In with (n := 100). vm_compute. reflexivity.
  - exists (firstn 100 (purchases db_hundred_one)).
    split; [vm_compute; reflexivity|].
    split; [vm_compute; reflexivity|].
    intros Hin. apply (in_map Purchase.id) in Hin.
    assert (Hno : existsb (String.eqb "id-105")
                    (map Purchase.id
                       (firstn 100 (purchases db_hundred_one))) = false)
      by (vm_compute; reflexivity).
    apply Bool.not_true_iff_false in Hno. apply Hno.
    apply existsb_exists. exists "id-105". split; [|apply String.eqb_refl].
    exact Hin.
Qed.

(** Nor is the wallet always debited by the price.  With 1e17 in the
    wallet the purchase at 1.0 returns and stores its record, and the
    stored balance is what it was: the update rounds, which is why the
    exact decrement is stated for updates that do not. *)
Lemma purchase_rounds_price_away :
  authenticates (sample_env 5) bob_token db_wealthy bob_wealthy /\
  stored_user db_wealthy (User.id bob_wealthy) bob_wealthy /\
  stored_product db_wealthy "id-2" ebook_listed /\
  (Product.price ebook_listed <=? User.wallet_balance bob_wealthy)%float
  = true /\
  exact_add (User.wallet_balance bob_wealthy) (- Product.price ebook_listed)
  = false /\
  exists db',
    purchase_product (sample_env 5) "id-2" bob_token db_wealthy
    = (Return ("Purchase successful", "id-5"), db') /\
    length (purchases db') = 1 /\
    authenticates (sample_env 5) bob_token db' bob_wealthy /\
    users db' = users db_wealthy /\
    ~ (value (User.wallet_balance bob_wealthy)
       - value (User.wallet_balance bob_wealthy)
       == value (Product.price ebook_listed))%Q.
Proof.
  split; [vm_compute; reflexivity|].
  split; [vm_compute; reflexivity|].
  split; [vm_compute; reflexivity|].
  split; [vm_compute; reflexivity|].
  split; [vm_compute; reflexivity|].
  exists (serve (sample_env 5) (PostPurchase "id-2" bob_token) db_wealthy).
  split; [vm_compute; reflexivity|].
  split; [vm_compute; reflexivity|].
  split; [vm_compute; reflexivity|].
  split; [vm_compute; reflexivity|].
  intros H. apply Qeq_bool_iff in H. vm_compute in H. discriminate.
Qed.

(** ** The wallet ledger *)

Lemma total_app l x : (total (l ++ [x]) == total l + value x)%Q.
Proof.
  induction l as [|y l IH]; simpl.
  - ring.
  - rewrite IH. ring.
Qed.

Lemma value_opp x : (value (- x) == - value x)%Q.
Proof.
  unfold value, float_value. rewrite opp_spec.
  destruct (Prim2SF x) as [s|s| |s m e]; simpl; try ring.
  destruct s; simpl; ring.
Qed.

(** What an exact addition says about the numbers. *)
Lemma exact_add_value x y :
  exact_add x y = true ->
  exists a c,
    float_value x = Some a /\ float_value (x + y) = Some c /\
    (c == a + value y)%Q.
Proof.
  unfold exact_add, value.
  destruct (float_value x) as [a|]; [|discriminate].
  destruct (float_value y) as [b|]; [|discriminate].
  destruct (float_value (x + y)) as [c|]; [|discriminate].
  intros H. apply Qeq_bool_iff in H. exists a, c.
  repeat split. now symmetry.
Qed.

(** *** Requests *)

Lemma is_approved_pending i r :
  TopUpRequest.status r = "pending" -> is_approved i r = false.
Proof. intros Hs. unfold is_approved. rewrite Hs. apply andb_false_r. Qed.

Lemma is_approved_set_approved i now notes r :
  is_approved i (TopUpRequest.set_processed "approved" now notes r)
  = request_by_user i r.
Proof. unfold is_approved. apply andb_true_r. Qed.

Lemma is_approved_set_rejected i now notes r :
  is_approved i (TopUpRequest.set_processed "rejected" now notes r) = false.
Proof. unfold is_approved. apply andb_false_r. Qed.

Lemma approved_after_approval reqs request_id r now notes i :
  Mongo.find_one (request_by_id request_id) reqs = Some r ->
  TopUpRequest.status r = "pending" ->
  (total (map TopUpRequest.amount
            (Mongo.find (is_approved i)
               (Mongo.update_one (request_by_id request_id)
                  (TopUpRequest.set_processed "approved" now notes) reqs)))
   == total (map TopUpRequest.amount (Mongo.find (is_approved i) reqs))
      + (if request_by_user i r then value (TopUpRequest.amount r) else 0))%Q.
Proof.
  unfold Mongo.find_one, Mongo.find.
  induction reqs as [|x reqs IH]; cbn [find Mongo.update_one filter];
    [discriminate|].
  destruct (request_by_id request_id x) eqn:Ex.
  - intros [= ->] Hs. cbn [filter].
    rewrite is_approved_set_approved, (is_approved_pending i r Hs).
    destruct (request_by_user i r); simpl; ring.
  - intros Hr Hs. cbn [filter].
    destruct (is_approved i x); simpl; rewrite (IH Hr Hs); ring.
Qed.

Lemma approved_after_rejection reqs request_id r now notes i :
  Mongo.find_one (request_by_id request_id) reqs = Some r ->
  TopUpRequest.status r = "pending" ->
  Mongo.find (is_approved i)
    (Mongo.update_one (request_by_id request_id)
       (TopUpRequest.set_processed "rejected" now notes) reqs)
  = Mongo.find (is_approved i) reqs.
Proof.
  unfold Mongo.find_one, Mongo.find.
  induction reqs as [|x reqs IH]; cbn [find Mongo.update_one filter];
    [discriminate|].
  destruct (request_by_id request_id x) eqn:Ex.
  - intros [= ->] Hs. cbn [filter].
    now rewrite is_approved_set_rejected, (is_approved_pending i r Hs).
  - intros Hr Hs. cbn [filter]. now rewrite (IH Hr Hs).
Qed.

Lemma find_nobody (D : Type) (q : D -> bool) c :
  (forall d, In d c -> q d = false) -> Mongo.find q c = [].
Proof.
  unfold Mongo.find. induction c as [|x c IH]; simpl; [reflexivity|].
  intros H. rewrite (H x (or_introl eq_refl)). apply IH.
  intros d Hd. apply H. now right.
Qed.

Lemma update_one_keeps (D K : Type) (f : D -> K) (q : D -> bool) upd c :
  (forall d, f (upd d) = f d) ->
  map f (Mongo.update_one q upd c) = map f c.
Proof.
  intros Hf. induction c as [|x c IH]; simpl; [reflexivity|].
  destruct (q x); simpl; [now rewrite Hf | now rewrite IH].
Qed.

Lemma not_existsb_by_id i us :
  negb (existsb (by_id i) us) = true -> ~ In i (map User.id us).
Proof.
  intros H Hin. apply negb_true_iff in H.
  apply in_map_iff in Hin as (u & Hid & Hu).
  assert (existsb (by_id i) us = true); [|congruence].
  apply existsb_exists. exists u. split; trivial.
  unfold by_id. now apply String.eqb_eq.
Qed.

(** *** The invariant *)

Lemma authenticated_is_stored env credentials db u :
  authenticates env credentials db u -> In u (users db).
Proof.
  intros Hu. apply get_current_user_returns in Hu.
  destruct Hu as (_ & claims & email & _ & _ & Hfound).
  now apply find_one_some in Hfound.
Qed.

Lemma update_one_owned (D : Type) (f : D -> string) q upd c d :
  (forall x, f (upd x) = f x) ->
  In d (Mongo.update_one q upd c) -> In (f d) (map f c).
Proof.
  intros Hf Hd. rewrite <- (update_one_keeps f q upd c Hf).
  now apply in_map.
Qed.

Lemma credit_wallet_ids user_id delta db :
  map User.id (users (credit_wallet user_id delta db)) = map User.id (users db).
Proof.
  cbn [credit_wallet set_users users]. now apply update_one_keeps.
Qed.

(** With unique identifiers the credited user is the one changed. *)
Lemma credit_wallet_users user_id delta db u' :
  NoDup (map User.id (users db)) ->
  In u' (users (credit_wallet user_id delta db)) ->
  exists u, In u (users db) /\
    ((User.id u = user_id /\ u' = User.inc_wallet_balance delta u /\
      stored_user db user_id u) \/
     (User.id u <> user_id /\ u' = u)).
Proof.
  intros Hnd Hin. cbn [credit_wallet set_users users] in Hin.
  change (by_id user_id) with (fun x => (User.id x =? user_id)%string) in Hin.
  rewrite (update_one_unique User.id user_id _ _ Hnd) in Hin.
  apply in_map_iff in Hin as (u & Hu' & Hu). exists u. split; trivial.
  destruct (String.eqb_spec (User.id u) user_id) as [He|Hne].
  - left. repeat split; auto. subst user_id.
    now apply stored_user_unique.
  - right. auto.
Qed.

(** **** Identifiers and owners *)

Lemma store_ok_empty : store_ok empty_db.
Proof.
  constructor; simpl; try contradiction. constructor.
Qed.

Lemma store_ok_register env body db :
  store_ok db ->
  ~ In (uuid4 env) (map User.id (users db)) ->
  store_ok (set_users (Mongo.insert_one (new_user env body)) db).
Proof.
  intros [Hnd Hreq Hpur] Hfresh.
  constructor; cbn [set_users users topup_requests purchases];
    unfold Mongo.insert_one; rewrite map_app.
  - apply NoDup_app; trivial.
    + constructor; [intros []|constructor].
    + intros a Ha [<-|[]]. contradiction.
  - intros r Hr. apply in_or_app. left. now apply Hreq.
  - intros p Hp. apply in_or_app. left. now apply Hpur.
Qed.

Lemma store_ok_request env body db u :
  store_ok db -> In u (users db) ->
  store_ok (set_topup_requests
              (Mongo.insert_one (new_topup_request env (User.id u) body)) db).
Proof.
  intros [Hnd Hreq Hpur] Hu.
  constructor; cbn [set_topup_requests users topup_requests purchases];
    trivial.
  intros r Hr. unfold Mongo.insert_one in Hr.
  apply in_app_or in Hr as [Hr|[<-|[]]]; [now apply Hreq|].
  cbn [new_topup_request TopUpRequest.user_id]. now apply in_map.
Qed.

Lemma store_ok_credit user_id delta db :
  store_ok db -> store_ok (credit_wallet user_id delta db).
Proof.
  intros [Hnd Hreq Hpur].
  constructor; rewrite credit_wallet_ids; trivial.
Qed.

Lemma store_ok_mark request_id st now notes db :
  store_ok db -> store_ok (mark_processed request_id st now notes db).
Proof.
  intros [Hnd Hreq Hpur].
  constructor;
    cbn [mark_processed set_topup_requests users topup_requests purchases];
    trivial.
  intros r' Hr'.
  apply update_one_owned with (f := TopUpRequest.user_id) in Hr';
    [|reflexivity].
  apply in_map_iff in Hr' as (r0 & <- & Hr0). now apply Hreq.
Qed.

Lemma store_ok_purchase env user_id product_id name price db :
  store_ok db -> In user_id (map User.id (users db)) ->
  store_ok (set_purchases
              (Mongo.insert_one
                 (new_purchase env user_id product_id name price)) db).
Proof.
  intros [Hnd Hreq Hpur] Hu.
  constructor; cbn [set_purchases users topup_requests purchases]; trivial.
  intros p Hp. unfold Mongo.insert_one in Hp.
  apply in_app_or in Hp as [Hp|[<-|[]]]; [now apply Hpur|exact Hu].
Qed.

(** One request keeps identifiers unique and owners stored when the
    identifier a registration draws is fresh. *)
Lemma store_ok_serve env req db :
  store_ok db ->
  fresh_uuid env req db = true ->
  store_ok (serve env req db).
Proof.
  intros Hok Hfresh.
  destruct (serve_writes env req db)
    as [req|body Hnone|body c|body c u Hu|request_id notes c r Hr Hs Hret
       |request_id notes c r Hr Hs|product_id c u p Hu Hp Hlt
       |body c u|body c u].
  - exact Hok.
  - apply store_ok_register; trivial. now apply not_existsb_by_id.
  - destruct Hok. now constructor.
  - apply store_ok_request; trivial.
    now apply authenticated_is_stored with (1 := Hu).
  - now apply store_ok_mark, store_ok_credit.
  - now apply store_ok_mark.
  - apply store_ok_purchase; [now apply store_ok_credit|].
    rewrite credit_wallet_ids. apply in_map.
    now apply authenticated_is_stored with (1 := Hu).
  - destruct Hok. now constructor.
  - destruct Hok. now constructor.
Qed.

(** **** Balances *)

Lemma balances_register env body db :
  store_ok db -> balances_match db ->
  ~ In (uuid4 env) (map User.id (users db)) ->
  balances_match (set_users (Mongo.insert_one (new_user env body)) db).
Proof.
  intros [Hnd Hreq Hpur] Hbal Hfresh u Hu.
  cbn [set_users users] in Hu. unfold Mongo.insert_one in Hu.
  apply in_app_or in Hu as [Hu|[<-|[]]].
  - destruct (Hbal u Hu) as (q & Hq & Heq). exists q. split; trivial.
  - exists 0%Q. split; [reflexivity|].
    unfold ledger_balance, approved_amounts, purchase_amounts.
    cbn [new_user User.id set_users topup_requests purchases].
    rewrite !find_nobody; [simpl; ring| |].
    + intros p Hp. unfold purchase_by_user. apply String.eqb_neq.
      intros He. apply Hfresh. rewrite <- He. now apply Hpur.
    + intros r Hr. unfold is_approved, request_by_user.
      apply andb_false_intro1. apply String.eqb_neq.
      intros He. apply Hfresh. rewrite <- He. now apply Hreq.
Qed.

Lemma balances_request env body db user_id :
  balances_match db ->
  balances_match
    (set_topup_requests
       (Mongo.insert_one (new_topup_request env user_id body)) db).
Proof.
  intros Hbal u Hu. destruct (Hbal u Hu) as (q & Hq & Heq).
  exists q. split; trivial. rewrite Heq.
  unfold ledger_balance, approved_amounts.
  cbn [set_topup_requests topup_requests].
  rewrite find_insert_one_no_match; [reflexivity|].
  now apply is_approved_pending.
Qed.

Lemma balances_rejection request_id now notes db r :
  balances_match db ->
  stored_request db request_id r ->
  TopUpRequest.status r = "pending" ->
  balances_match (mark_processed request_id "rejected" now notes db).
Proof.
  intros Hbal Hr Hs u Hu. destruct (Hbal u Hu) as (q & Hq & Heq).
  exists q. split; trivial. rewrite Heq.
  unfold ledger_balance, approved_amounts.
  cbn [mark_processed set_topup_requests topup_requests].
  unfold stored_request in Hr.
  now erewrite approved_after_rejection by eassumption.
Qed.

Lemma balances_approval request_id now notes db r :
  store_ok db -> balances_match db ->
  stored_request db request_id r ->
  TopUpRequest.status r = "pending" ->
  (forall u, stored_user db (TopUpRequest.user_id r) u ->
     exact_add (User.wallet_balance u) (TopUpRequest.amount r) = true) ->
  balances_match
    (mark_processed request_id "approved" now notes
       (credit_wallet (TopUpRequest.user_id r) (TopUpRequest.amount r) db)).
Proof.
  intros [Hnd Hreq Hpur] Hbal Hr Hs Hexact u' Hu'.
  apply credit_wallet_users in Hu'; [|exact Hnd].
  destruct Hu' as (u & Hu & Hcase).
  destruct (Hbal u Hu) as (q & Hq & Heq).
  pose proof (@approved_after_approval (topup_requests db) request_id r
                now notes (User.id u) Hr Hs) as Happ.
  unfold request_by_user in Happ.
  destruct Hcase as [(Hid & -> & Hst)|(Hid & ->)].
  - apply Hexact, exact_add_value in Hst.
    destruct Hst as (a & c & Ha & Hc & Hsum).
    assert (a = q) by congruence. subst a.
    exists c. split; [exact Hc|].
    rewrite Hsum, Heq.
    unfold ledger_balance, approved_amounts, purchase_amounts.
    cbn [User.inc_wallet_balance User.id mark_processed credit_wallet
         set_topup_requests set_users topup_requests purchases].
    rewrite Happ, Hid, String.eqb_refl. ring.
  - exists q. split; [exact Hq|].
    rewrite Heq.
    unfold ledger_balance, approved_amounts, purchase_amounts.
    cbn [mark_processed credit_wallet
         set_topup_requests set_users topup_requests purchases].
    rewrite Happ.
    replace (TopUpRequest.user_id r =? User.id u)%string with false
      by (symmetry; apply String.eqb_neq; congruence).
    ring.
Qed.

Lemma balances_purchase env db u product_id name price :
  store_ok db -> balances_match db ->
  (forall u0, stored_user db (User.id u) u0 ->
     exact_add (User.wallet_balance u0) (- price) = true) ->
  balances_match
    (set_purchases
       (Mongo.insert_one (new_purchase env (User.id u) product_id name price))
       (credit_wallet (User.id u) (- price) db)).
Proof.
  intros [Hnd Hreq Hpur] Hbal Hexact u' Hu'.
  apply credit_wallet_users in Hu'; [|exact Hnd].
  destruct Hu' as (u0 & Hu0 & Hcase).
  destruct (Hbal u0 Hu0) as (q & Hq & Heq).
  destruct Hcase as [(Hid & -> & Hst)|(Hid & ->)].
  - apply Hexact, exact_add_value in Hst.
    destruct Hst as (a & c & Ha & Hc & Hsum).
    assert (a = q) by congruence. subst a.
    exists c. split; [exact Hc|].
    rewrite Hsum, Heq, value_opp.
    unfold ledger_balance, approved_amounts, purchase_amounts.
    cbn [User.inc_wallet_balance User.id credit_wallet set_purchases
         set_users topup_requests purchases].
    rewrite find_insert_one_match.
    + rewrite map_app. cbn [map]. rewrite total_app. simpl. ring.
    + unfold purchase_by_user. cbn [new_purchase Purchase.user_id].
      now rewrite Hid, String.eqb_refl.
  - exists q. split; [exact Hq|].
    rewrite Heq.
    unfold ledger_balance, approved_amounts, purchase_amounts.
    cbn [credit_wallet set_purchases set_users topup_requests purchases].
    rewrite find_insert_one_no_match; [reflexivity|].
    unfold purchase_by_user. cbn [new_purchase Purchase.user_id].
    apply String.eqb_neq. congruence.
Qed.

Lemma posting_of_approval env request_id notes c db r :
  stored_request db request_id r ->
  fst (approve_topup env request_id notes c db)
    = Return "Top-up approved successfully" ->
  posting env (PostApprove request_id notes c) db
  = Some (TopUpRequest.user_id r, TopUpRequest.amount r).
Proof.
  intros Hr Hret. unfold posting.
  destruct (approve_topup env request_id notes c db) as [[msg|e] db'];
    [|discriminate].
  unfold stored_request in Hr. now rewrite Hr.
Qed.

Lemma posting_of_purchase env product_id c db u p :
  authenticates env c db u ->
  stored_product db product_id p ->
  (User.wallet_balance u <? Product.price p)%float = false ->
  posting env (PostPurchase product_id c) db
  = Some (User.id u, (- Product.price p)%float).
Proof.
  intros Hu Hp Hlt. unfold posting.
  rewrite (purchase_product_succeeds Hu Hp Hlt).
  unfold authenticates in Hu. unfold stored_product in Hp.
  now rewrite Hu, Hp.
Qed.

(** One request keeps the balances on the ledger when the identifier it
    draws is fresh and the addition it makes is exact. *)
Lemma balances_serve env req db :
  store_ok db -> balances_match db ->
  fresh_uuid env req db = true ->
  exact_posting env req db = true ->
  balances_match (serve env req db).
Proof.
  intros Hok Hbal Hfresh Hexact.
  destruct (serve_writes env req db)
    as [req|body Hnone|body c|body c u Hu|request_id notes c r Hr Hs Hret
       |request_id notes c r Hr Hs|product_id c u p Hu Hp Hlt
       |body c u|body c u]; trivial.
  - apply balances_register; trivial. now apply not_existsb_by_id.
  - now apply balances_request.
  - apply balances_approval; trivial.
    intros u Hu. unfold exact_posting in Hexact.
    rewrite (posting_of_approval _ _ _ Hr Hret) in Hexact.
    unfold stored_user in Hu. now rewrite Hu in Hexact.
  - now apply balances_rejection with (r := r).
  - apply balances_purchase; trivial.
    intros u0 Hu0. unfold exact_posting in Hexact.
    rewrite (posting_of_purchase Hu Hp Hlt) in Hexact.
    unfold stored_user in Hu0. now rewrite Hu0 in Hexact.
Qed.

Lemma store_ok_run trace db :
  store_ok db ->
  fresh_ids trace db = true ->
  store_ok (run trace db).
Proof.
  revert db. induction trace as [|[env req] trace IH]; intros db Hok; simpl.
  - trivial.
  - intros Hf. apply andb_true_iff in Hf as [Hf Hf'].
    apply IH; trivial. now apply store_ok_serve.
Qed.

Lemma ledger_ok_run trace db :
  ledger_ok db ->
  fresh_ids trace db = true ->
  no_rounding trace db = true ->
  ledger_ok (run trace db).
Proof.
  revert db.
  induction trace as [|[env req] trace IH]; intros db [Hok Hbal]; simpl.
  - now split.
  - intros Hf Hn. apply andb_true_iff in Hf as [Hf Hf'].
    apply andb_true_iff in Hn as [Hn Hn'].
    apply IH; trivial. split.
    + now apply store_ok_serve.
    + now apply balances_serve.
Qed.

Lemma ledger_ok_empty : ledger_ok empty_db.
Proof.
  split; [apply store_ok_empty|]. intros u [].
Qed.

(** C1, as the code has it: along any run from the empty database in
    which registrations draw fresh identifiers and no wallet addition
    rounds, every stored balance is finite and equals, as a number, the
    sum of the user's approved top-up amounts less the sum of the
    amounts of their purchase records. *)
Theorem wallet_balance_is_ledger_balance trace u :
  fresh_ids trace empty_db = true ->
  no_rounding trace empty_db = true ->
  In u (users (run trace empty_db)) ->
  exists q,
    float_value (User.wallet_balance u) = Some q /\
    (q == total (approved_amounts (User.id u) (run trace empty_db))
          - total (purchase_amounts (User.id u) (run trace empty_db)))%Q.
Proof.
  intros Hf Hn Hu.
  assert (Hok : ledger_ok (run trace empty_db))
    by (apply ledger_ok_run; trivial; apply ledger_ok_empty).
  destruct Hok as [_ Hbal]. exact (Hbal u Hu).
Qed.

(** C1 as stated fails on floats.  The customer tops up 0.5, buys at
    0.2 and tops up 0.1: the stored balance is 0.4, while the approved
    amounts less the purchased amount is 0.39999999999999997 when summed
    in floats, and differs from the balance as an exact number too. *)
Lemma rounding_breaks_ledger_equality :
  fresh_ids rounding_trace empty_db = true /\
  In bob_rounded (users (run rounding_trace empty_db)) /\
  User.wallet_balance bob_rounded = 0.4%float /\
  float_ledger_balance (User.id bob_rounded) (run rounding_trace empty_db)
  = 0.39999999999999997%float /\
  (User.wallet_balance bob_rounded
   =? float_ledger_balance (User.id bob_rounded)
        (run rounding_trace empty_db))%float = false /\
  ~ (value (User.wallet_balance bob_rounded)
     == ledger_balance (User.id bob_rounded) (run rounding_trace empty_db))%Q.
Proof.
  split; [vm_compute; reflexivity|].
  split; [vm_compute; right; left; reflexivity|].
  split; [reflexivity|].
  split; [vm_compute; reflexivity|].
  split; [vm_compute; reflexivity|].
  intros H. apply Qeq_bool_iff in H. vm_compute in H. discriminate.
Qed.

(** ** The properties at work on the sample deployment *)

(** The ledger equality on a run whose amounts binary64 holds exactly:
    the customer ends with 50 - 12.5 + 0.25 - 12.5 = 25.25. *)
Lemma wallet_balance_is_ledger_balance_witness :
  fresh_ids exact_trace empty_db = true /\
  no_rounding exact_trace empty_db = true /\
  In bob_settled (users (run exact_trace empty_db)) /\
  exists q,
    float_value (User.wallet_balance bob_settled) = Some q /\
    (q == total (approved_amounts (User.id bob_settled)
                   (run exact_trace empty_db))
          - total (purchase_amounts (User.id bob_settled)
                     (run exact_trace empty_db)))%Q.
Proof.
  assert (Hf : fresh_ids exact_trace empty_db = true)
    by (vm_compute; reflexivity).
  assert (Hn : no_rounding exact_trace empty_db = true)
    by (vm_compute; reflexivity).
  assert (Hu : In bob_settled (users (run exact_trace empty_db)))
    by (vm_compute; right; left; reflexivity).
  repeat split; trivial.
  exact (wallet_balance_is_ledger_balance exact_trace bob_settled Hf Hn Hu).
Defined.

(** The administrator approves the customer's request of 50.0. *)
Lemma approve_topup_credits_wallet_witness :
  authenticates (sample_env 4) root_token db_pending root_user /\
  stored_request db_pending "id-3" topup_pending /\
  stored_user db_pending "id-1" bob_pending /\
  exists db' u',
    approve_topup (sample_env 4) "id-3" None root_token db_pending
    = (Return "Top-up approved successfully", db') /\
    stored_user db' "id-1" u' /\
    User.wallet_balance u' = 50%float /\
    exists balance amount balance',
      float_value (User.wallet_balance bob_pending) = Some balance /\
      float_value (TopUpRequest.amount topup_pending) = Some amount /\
      float_value (User.wallet_balance u') = Some balance' /\
      (balance' - balance == amount)%Q.
Proof.
  assert (Hadm : authenticates (sample_env 4) root_token db_pending root_user)
    by (vm_compute; reflexivity).
  assert (Hr : stored_request db_pending "id-3" topup_pending)
    by (vm_compute; reflexivity).
  assert (Hu : stored_user db_pending (TopUpRequest.user_id topup_pending)
                 bob_pending)
    by (vm_compute; reflexivity).
  assert (Hexact : exact_add (User.wallet_balance bob_pending)
                     (TopUpRequest.amount topup_pending) = true)
    by (vm_compute; reflexivity).
  split; [exact Hadm|]. split; [exact Hr|]. split; [exact Hu|].
  destruct (@approve_topup_credits_wallet (sample_env 4) root_token db_pending
              root_user "id-3" topup_pending None bob_pending
              Hadm eq_refl Hr eq_refl Hu)
    as (db' & u' & request' & Hret & Hu' & _ & Hnumber & _ & _ & _ & _ & _
        & _ & _ & H50).
  exists db', u'. split; [exact Hret|]. split; [exact Hu'|].
  split; [now apply H50|]. exact (Hnumber Hexact).
Defined.

(** The customer, funded with 50.0, buys the product at 1.0 and finds
    the record in the purchase history. *)
Lemma purchase_within_balance_witness :
  authenticates (sample_env 5) bob_token db_funded bob_funded /\
  stored_product db_funded "id-2" ebook_listed /\
  exists db' u' record,
    purchase_product (sample_env 5) "id-2" bob_token db_funded
    = (Return ("Purchase successful", Purchase.id record), db') /\
    authenticates (sample_env 5) bob_token db' u' /\
    User.wallet_balance u' = (50 - 1)%float /\
    get_user_purchases (sample_env 5) bob_token db' = (Return [record], db') /\
    exists balance price balance',
      float_value (User.wallet_balance bob_funded) = Some balance /\
      float_value (Product.price ebook_listed) = Some price /\
      float_value (User.wallet_balance u') = Some balance' /\
      (balance - balance' == price)%Q.
Proof.
  assert (Hu : authenticates (sample_env 5) bob_token db_funded bob_funded)
    by (vm_compute; reflexivity).
  assert (Hid : stored_user db_funded (User.id bob_funded) bob_funded)
    by (vm_compute; reflexivity).
  assert (Hp : stored_product db_funded "id-2" ebook_listed)
    by (vm_compute; reflexivity).
  assert (Hexact : exact_add (User.wallet_balance bob_funded)
                     (- Product.price ebook_listed) = true)
    by (vm_compute; reflexivity).
  split; [exact Hu|]. split; [exact Hp|].
  destruct (@purchase_within_balance (sample_env 5) bob_token db_funded
              bob_funded "id-2" ebook_listed Hu Hid Hp eq_refl)
    as (db' & u' & record & Hret & _ & Hu' & Hbal & Hnumber & _ & _ & Hlist).
  exists db', u', record. split; [exact Hret|]. split; [exact Hu'|].
  split; [exact Hbal|].
  split; [apply Hlist; vm_compute; lia|]. exact (Hnumber Hexact).
Defined.

(** Before the top-up is approved the customer's balance is 0.0 and the
    product at 1.0 is refused. *)
Lemma purchase_above_balance_rejected_witness :
  authenticates (sample_env 4) bob_token db_pending bob_pending /\
  stored_product db_pending "id-2" ebook_listed /\
  exists e,
    purchase_product (sample_env 4) "id-2" bob_token db_pending
    = (Raise e, db_pending) /\
    status_code e = 400%Z.
Proof.
  assert (Hu : authenticates (sample_env 4) bob_token db_pending bob_pending)
    by (vm_compute; reflexivity).
  assert (Hp : stored_product db_pending "id-2" ebook_listed)
    by (vm_compute; reflexivity).
  repeat split; trivial.
  destruct (@purchase_above_balance_rejected (sample_env 4) bob_token
              db_pending bob_pending "id-2" ebook_listed Hu Hp eq_refl)
    as (e & db' & Hret & Hcode & _ & -> & _).
  now exists e.
Defined.

(** The approved request can be neither approved again nor rejected,
    and later purchases leave it alone. *)
Lemma processed_topup_is_final_witness :
  authenticates (sample_env 5) root_token db_funded root_user /\
  stored_request db_funded "id-3" topup_approved /\
  approve_topup (sample_env 5) "id-3" None root_token db_funded
  = (Raise already_processed, db_funded) /\
  reject_topup (sample_env 5) "id-3" "late" root_token db_funded
  = (Raise already_processed, db_funded) /\
  stored_request (run (purchases_from 5 3) db_funded) "id-3" topup_approved.
Proof.
  assert (Hadm : authenticates (sample_env 5) root_token db_funded root_user)
    by (vm_compute; reflexivity).
  assert (Hr : stored_request db_funded "id-3" topup_approved)
    by (vm_compute; reflexivity).
  assert (Hs : TopUpRequest.status topup_approved <> "pending")
    by (vm_compute; discriminate).
  destruct (@processed_topup_is_final (sample_env 5) root_token db_funded
              root_user "id-3" topup_approved Hadm eq_refl Hr Hs)
    as (Happrove & Hreject & Hkept).
  repeat split; trivial.
Defined.

(** The administrator rejects the pending request with a note. *)
Lemma reject_topup_sets_status_only_witness :
  authenticates (sample_env 4) root_token db_pending root_user /\
  stored_request db_pending "id-3" topup_pending /\
  exists db',
    reject_topup (sample_env 4) "id-3" "unreadable" root_token db_pending
    = (Return "Top-up rejected", db') /\
    stored_request db' "id-3"
      (TopUpRequest.Build "id-3" "id-1" 50%float "receipt.png" "rejected" 3
         (Some 4%Z) (Some "unreadable")) /\
    users db' = users db_pending.
Proof.
  assert (Hadm : authenticates (sample_env 4) root_token db_pending root_user)
    by (vm_compute; reflexivity).
  assert (Hr : stored_request db_pending "id-3" topup_pending)
    by (vm_compute; reflexivity).
  repeat split; trivial.
  destruct (@reject_topup_sets_status_only (sample_env 4) root_token
              db_pending root_user "id-3" topup_pending "unreadable"
              Hadm eq_refl Hr eq_refl)
    as (db' & Hret & Hr' & _ & _ & Hus & _).
  exists db'. repeat split; trivial.
Defined.

(** The customer's email cannot be registered a second time. *)
Lemma register_existing_email_rejected_witness :
  In bob_pending (users db_pending) /\
  register (sample_env 4) bob_body db_pending = (Raise email_taken, db_pending).
Proof.
  assert (Hin : In bob_pending (users db_pending))
    by (vm_compute; right; left; reflexivity).
  split; [exact Hin|].
  exact (@register_existing_email_rejected (sample_env 4) bob_body db_pending
           bob_pending Hin eq_refl).
Defined.

(** The customer is no administrator: approving the own request and
    creating a product are both refused. *)
Lemma admin_routes_forbidden_for_non_admin_witness :
  authenticates (sample_env 4) bob_token db_pending bob_pending /\
  approve_topup (sample_env 4) "id-3" None bob_token db_pending
  = (Raise forbidden, db_pending) /\
  create_product (sample_env 4) (ebook 0%float) bob_token db_pending
  = (Raise forbidden, db_pending).
Proof.
  assert (Hu : authenticates (sample_env 4) bob_token db_pending bob_pending)
    by (vm_compute; reflexivity).
  destruct (@admin_routes_forbidden_for_non_admin (sample_env 4) bob_token
              db_pending bob_pending Hu eq_refl)
    as (Hproduct & _ & Happrove & _ & _).
  repeat split; trivial.
Defined.

(** The first registration of the sample run asks for [is_admin] and
    gets a token the admin guard accepts. *)
Lemma register_stores_supplied_is_admin_witness :
  exists resp db',
    register (sample_env 0) root_body empty_db = (Return resp, db') /\
    users db' = [new_user (sample_env 0) root_body] /\
    get_admin_user (sample_env 1) (access_token resp) db'
    = (Return (new_user (sample_env 0) root_body), db').
Proof.
  destruct (@register_stores_supplied_is_admin (sample_env 0) root_body
              empty_db (fun u (H : In u []) => False_ind _ H))
    as (resp & db' & Hret & Hus & _ & _ & Hadm).
  exists resp, db'. repeat split; trivial.
  apply Hadm; [reflexivity|]. vm_compute. reflexivity.
Defined.

(** The shelved product is missing from the listing, is still returned
    by id, and is still sold. *)
Lemma is_active_filters_the_listing_only_witness :
  stored_product db_shelved "id-2" ebook_shelved /\
  Product.is_active ebook_shelved = false /\
  get_products db_shelved = (Return [], db_shelved) /\
  get_product "id-2" db_shelved = (Return ebook_shelved, db_shelved) /\
  exists db',
    purchase_product (sample_env 5) "id-2" bob_token db_shelved
    = (Return ("Purchase successful", "id-5"), db').
Proof.
  assert (Hp : stored_product db_shelved "id-2" ebook_shelved)
    by (vm_compute; reflexivity).
  assert (Hu : authenticates (sample_env 5) bob_token db_shelved bob_funded)
    by (vm_compute; reflexivity).
  destruct (is_active_filters_the_listing_only db_shelved) as [_ Hsold].
  destruct (Hsold "id-2" ebook_shelved Hp eq_refl) as [Hget Hbuy].
  destruct (Hbuy (sample_env 5) bob_token bob_funded Hu eq_refl)
    as (db' & Hret & _).
  repeat split; trivial. now exists db'.
Defined.

(** ** Further properties of the handlers *)

Lemma find_one_by_email_none email (us : list User.t) :
  Mongo.find_one (by_email email) us = None ->
  ~ In email (map User.email us).
Proof.
  intros Hnone Hin. apply in_map_iff in Hin as (u & He & Hu).
  unfold Mongo.find_one in Hnone.
  pose proof (find_none _ _ Hnone u Hu) as Hq.
  unfold by_email in Hq. rewrite He, String.eqb_refl in Hq. discriminate.
Qed.

(** No request makes two stored users share an email. *)
Lemma emails_unique_serve env req db :
  NoDup (map User.email (users db)) ->
  NoDup (map User.email (users (serve env req db))).
Proof.
  intros Hnd.
  destruct (serve_writes env req db)
    as [req|body Hnone|body c|body c u Hu|request_id notes c r Hr Hs Hret
       |request_id notes c r Hr Hs|product_id c u p Hu Hp Hlt
       |body c u|body c u];
    cbn [mark_processed credit_wallet set_users set_products set_purchases
         set_topup_requests set_tickets set_blog_posts users];
    trivial.
  - unfold Mongo.insert_one. rewrite map_app. apply NoDup_app; trivial.
    + constructor; [intros []|constructor].
    + intros a Ha [<-|[]]. now apply find_one_by_email_none in Hnone.
  - now rewrite update_one_keeps.
  - now rewrite update_one_keeps.
Qed.

(** X1: emails are unique: along every run from the empty database no two
    stored users have the same email, whatever is requested. *)
Theorem emails_stay_unique trace :
  NoDup (map User.email (users (run trace empty_db))).
Proof.
  assert (H : forall db, NoDup (map User.email (users db)) ->
                         NoDup (map User.email (users (run trace db)))).
  { induction trace as [|[env req] trace IH]; intros db Hnd; simpl.
    - exact Hnd.
    - apply IH. now apply emails_unique_serve. }
  apply H. constructor.
Qed.

(** X2: a top-up submission stores one pending request with the caller's id
    and the submitted amount, and touches neither the users nor the
    purchases: no balance moves before an administrator approves. *)
Theorem request_topup_stores_pending env body credentials db u :
  authenticates env credentials db u ->
  exists db',
    request_topup env body credentials db
    = (Return ("Top-up request submitted successfully", uuid4 env), db') /\
    topup_requests db'
    = topup_requests db ++
      [TopUpRequest.Build (uuid4 env) (User.id u) (TopUpCreate.amount body)
         (TopUpCreate.receipt_data body) "pending" (utcnow env) None None] /\
    users db' = users db /\
    purchases db' = purchases db /\
    products db' = products db.
Proof.
  intros Hu. unfold request_topup. rewrite (bind_authenticated _ Hu).
  eexists. split; [reflexivity|]. now repeat split.
Qed.

(** The customer of the sample run asks for 50.0. *)
Lemma request_topup_stores_pending_witness :
  authenticates (sample_env 3) bob_token db_registered bob_pending /\
  exists db',
    request_topup (sample_env 3) (TopUpCreate.Build 50%float "receipt.png")
      bob_token db_registered
    = (Return ("Top-up request submitted successfully", "id-3"), db') /\
    topup_requests db' = [topup_pending] /\
    users db' = users db_registered.
Proof.
  assert (Hu : authenticates (sample_env 3) bob_token db_registered
                 bob_pending)
    by (vm_compute; reflexivity).
  split; [exact Hu|].
  destruct (@request_topup_stores_pending (sample_env 3)
              (TopUpCreate.Build 50%float "receipt.png") bob_token
              db_registered bob_pending Hu)
    as (db' & Hret & Hreqs & Hus & _).
  exists db'. split; [exact Hret|]. split; [|exact Hus].
  rewrite Hreqs. vm_compute. reflexivity.
Defined.

(** X3: [login] answers 401 for an unknown email and for a password the
    context does not verify; otherwise it writes nothing and returns
    the stored user's data with a token that authenticates as that user
    for the next 24 hours. *)
Theorem login_checks_password env body db :
  match Mongo.find_one (by_email (UserLogin.email body)) (users db) with
  | Some u =>
      if pwd_verify env (UserLogin.password body) (User.password_hash u)
      then
        exists resp,
          login env body db = (Return resp, db) /\
          user resp = user_info u /\
          forall env', (utcnow env' < utcnow env + hours 24)%Z ->
            authenticates env' (access_token resp) db u
      else
        login env body db
        = (Raise (mkHTTPException 401 "Incorrect email or password"), db)
  | None =>
      login env body db
      = (Raise (mkHTTPException 401 "Incorrect email or password"), db)
  end.
Proof.
  unfold login, bind, query, verify_password.
  destruct (Mongo.find_one _ (users db)) as [u|] eqn:Hu; [|reflexivity].
  destruct (pwd_verify env _ _); [|reflexivity].
  eexists. split; [reflexivity|]. split; [reflexivity|].
  intros env' Hexp. apply get_current_user_signed; trivial.
  now apply Z.ltb_lt.
Qed.

(** X4: along every run from the empty database whose registrations draw
    fresh identifiers, user identifiers are pairwise distinct and every
    top-up request and purchase record carries the id of a stored user:
    [update_one] on a [user_id] always finds exactly its wallet. *)
Theorem records_name_stored_users trace :
  fresh_ids trace empty_db = true ->
  NoDup (map User.id (users (run trace empty_db))) /\
  (forall r, In r (topup_requests (run trace empty_db)) ->
     exists u, In u (users (run trace empty_db)) /\
               User.id u = TopUpRequest.user_id r) /\
  (forall p, In p (purchases (run trace empty_db)) ->
     exists u, In u (users (run trace empty_db)) /\
               User.id u = Purchase.user_id p).
Proof.
  intros Hf.
  destruct (store_ok_run trace store_ok_empty Hf) as [Hnd Hreq Hpur].
  split; [exact Hnd|]. split.
  - intros r Hr. apply Hreq, in_map_iff in Hr as (u & Hid & Hu). eauto.
  - intros p Hp. apply Hpur, in_map_iff in Hp as (u & Hid & Hu). eauto.
Qed.

(** On the sample run every record belongs to the customer [id-1]. *)
Lemma records_name_stored_users_witness :
  fresh_ids exact_trace empty_db = true /\
  NoDup (map User.id (users (run exact_trace empty_db))) /\
  length (purchases (run exact_trace empty_db)) = 2.
Proof.
  assert (Hf : fresh_ids exact_trace empty_db = true)
    by (vm_compute; reflexivity).
  split; [exact Hf|].
  destruct (records_name_stored_users exact_trace Hf) as (Hnd & _ & _).
  split; [exact Hnd|]. vm_compute. reflexivity.
Defined.

(** X5: authentication either returns the stored user whose email is the
    subject of a token [jwt.decode] accepts, or raises 401; it never
    writes. *)
Theorem get_current_user_stored_or_unauthorized env credentials db :
  (exists u claims email,
     jwt_decode (utcnow env) credentials SECRET_KEY = Some claims /\
     sub claims = Some email /\
     Mongo.find_one (by_email email) (users db) = Some u /\
     get_current_user env credentials db = (Return u, db)) \/
  get_current_user env credentials db = (Raise unauthorized, db).
Proof.
  unfold get_current_user.
  destruct (jwt_decode _ _ _) as [claims|] eqn:Hdec; [|now right].
  destruct (sub claims) as [email|] eqn:Hsub; [|now right].
  unfold bind, query.
  destruct (Mongo.find_one _ (users db)) as [u|] eqn:Hu; [|now right].
  left. now exists u, claims, email.
Qed.

(** ** Failures *)

Lemma get_current_user_raises env credentials db e db' :
  get_current_user env credentials db = (Raise e, db') ->
  e = unauthorized /\ db' = db.
Proof.
  unfold get_current_user.
  destruct (jwt_decode _ _ _) as [claims|];
    [|unfold raise; intros [= <- <-]; auto].
  destruct (sub claims) as [email|];
    [|unfold raise; intros [= <- <-]; auto].
  unfold bind, query, ret, raise.
  destruct (Mongo.find_one _ (users db)); [discriminate|].
  intros [= <- <-]; auto.
Qed.

Lemma clean_bind_authenticated env credentials db A (k : User.t -> handler A) :
  (forall u, authenticates env credentials db u -> clean_failure db (k u db)) ->
  clean_failure db (bind (get_current_user env credentials) k db).
Proof.
  intros Hk. unfold bind.
  destruct (get_current_user env credentials db) as [[u|e] db'] eqn:E.
  - apply get_current_user_returns in E as H. destruct H as [-> _].
    now apply Hk.
  - apply get_current_user_raises in E as [-> ->]. simpl. tauto.
Qed.

Lemma clean_bind_admin env credentials db A (k : User.t -> handler A) :
  (forall u, authenticates env credentials db u -> User.is_admin u = true ->
             clean_failure db (k u db)) ->
  clean_failure db (bind (get_admin_user env credentials) k db).
Proof.
  intros Hk. unfold get_admin_user.
  unfold bind at 1. unfold bind at 1.
  destruct (get_current_user env credentials db) as [[u|e] db'] eqn:E.
  - apply get_current_user_returns in E as H. destruct H as [-> _].
    destruct (User.is_admin u) eqn:Ha; simpl.
    + now apply Hk.
    + tauto.
  - apply get_current_user_raises in E as [-> ->]. simpl. tauto.
Qed.

(** Every handler, when it raises, raises 400, 401, 403 or 404 and has
    written nothing. *)
Lemma handlers_fail_cleanly env db :
  (forall body, clean_failure db (register env body db)) /\
  (forall body, clean_failure db (login env body db)) /\
  (forall c, clean_failure db (get_me env c db)) /\
  clean_failure db (get_products db) /\
  (forall body c, clean_failure db (create_product env body c db)) /\
  (forall i, clean_failure db (get_product i db)) /\
  (forall body c, clean_failure db (request_topup env body c db)) /\
  (forall c, clean_failure db (get_user_topup_requests env c db)) /\
  (forall c, clean_failure db (get_all_topup_requests env c db)) /\
  (forall i n c, clean_failure db (approve_topup env i n c db)) /\
  (forall i n c, clean_failure db (reject_topup env i n c db)) /\
  (forall i c, clean_failure db (purchase_product env i c db)) /\
  (forall c, clean_failure db (get_user_purchases env c db)) /\
  (forall body c, clean_failure db (create_ticket env body c db)) /\
  (forall c, clean_failure db (get_user_tickets env c db)) /\
  clean_failure db (get_blog_posts db) /\
  (forall body c, clean_failure db (create_blog_post env body c db)) /\
  (forall i, clean_failure db (get_blog_post i db)).
Proof.
  repeat split; intros;
    try (first [ unfold get_me | unfold request_topup
               | unfold get_user_topup_requests | unfold purchase_product
               | unfold get_user_purchases | unfold create_ticket
               | unfold get_user_tickets ];
         apply clean_bind_authenticated; intros u Hu);
    try (first [ unfold create_product | unfold get_all_topup_requests
               | unfold approve_topup | unfold reject_topup
               | unfold create_blog_post ];
         apply clean_bind_admin; intros u Hu Ha);
    unfold register, login, get_product, get_blog_post, get_products,
      get_blog_posts, bind, query, update_db, ret, raise;
    repeat match goal with
           | |- context [match Mongo.find_one ?q ?c with _ => _ end] =>
               destruct (Mongo.find_one q c)
           | |- context [if ?b then _ else _] => destruct b
           end;
    simpl; tauto.
Qed.

Lemma clean_failure_raised A db (r : outcome A * Database) e :
  clean_failure db r -> raised r = Some e ->
  snd r = db /\ In (status_code e) [400%Z; 401%Z; 403%Z; 404%Z].
Proof.
  destruct r as [[a|e'] db']; unfold raised; simpl; [discriminate|].
  intros [-> Hc] [= <-]. auto.
Qed.

(** X6: whatever the route and its input, a request that ends in an
    exception ends in a 400, 401, 403 or 404 and leaves the database
    exactly as it was: no handler writes before it raises. *)
Theorem failed_request_writes_nothing env req db e :
  failure env req db = Some e ->
  serve env req db = db /\
  In (status_code e) [400%Z; 401%Z; 403%Z; 404%Z].
Proof.
  pose proof (handlers_fail_cleanly env db) as H.
  decompose [and] H. clear H.
  destruct req; unfold failure, serve;
    apply clean_failure_raised; auto.
Qed.

(** The customer's purchase without funds is such a failure. *)
Lemma failed_request_writes_nothing_witness :
  failure (sample_env 4) (PostPurchase "id-2" bob_token) db_pending
  = Some insufficient_balance /\
  serve (sample_env 4) (PostPurchase "id-2" bob_token) db_pending
  = db_pending.
Proof.
  assert (Hf : failure (sample_env 4) (PostPurchase "id-2" bob_token)
                 db_pending = Some insufficient_balance)
    by (vm_compute; reflexivity).
  split; [exact Hf|].
  exact (proj1 (@failed_request_writes_nothing (sample_env 4)
                  (PostPurchase "id-2" bob_token) db_pending
                  insufficient_balance Hf)).
Defined.

(** X7: the routes that only read ([login] and every GET route) leave
    the database as it was, whether they return or raise and whoever
    calls them. *)
Theorem read_routes_never_write env db :
  (forall body, serve env (PostLogin body) db = db) /\
  (forall c, serve env (GetMe c) db = db) /\
  serve env GetProducts db = db /\
  (forall i, serve env (GetProduct i) db = db) /\
  (forall c, serve env (GetTopupRequests c) db = db) /\
  (forall c, serve env (GetAdminTopupRequests c) db = db) /\
  (forall c, serve env (GetPurchases c) db = db) /\
  (forall c, serve env (GetTickets c) db = db) /\
  serve env GetBlog db = db /\
  (forall i, serve env (GetBlogPost i) db = db).
Proof.
  repeat split; intros;
    match goal with
    | |- serve env ?req db = db =>
        pose proof (serve_writes env req db) as H; inversion H; congruence
    end.
Qed.

(** ** Listings *)

Section ListingFacts.
Variable D : Type.
Implicit Types (q : D -> bool) (c : list D) (d : D).

Lemma listing_bounded n q c :
  length (Mongo.to_list n (Mongo.find q c)) <= n.
Proof. apply firstn_le_length. Qed.

Lemma listing_sound n q c d :
  In d (Mongo.to_list n (Mongo.find q c)) -> In d c /\ q d = true.
Proof. intros H. now apply to_list_In, filter_In in H. Qed.

Lemma listing_complete n q c d :
  length (Mongo.find q c) <= n -> In d c -> q d = true ->
  In d (Mongo.to_list n (Mongo.find q c)).
Proof.
  intros Hn Hd Hq. rewrite to_list_all by exact Hn.
  apply filter_In. auto.
Qed.

Lemma find_everything c : Mongo.find (fun _ => true) c = c.
Proof.
  unfold Mongo.find. induction c as [|x c IH]; simpl; congruence.
Qed.

Lemma find_one_nobody q c :
  (forall d, In d c -> q d = false) -> Mongo.find_one q c = None.
Proof.
  intros H. destruct (Mongo.find_one q c) as [d|] eqn:E; [|reflexivity].
  apply find_one_some in E as [Hd Hq]. rewrite (H d Hd) in Hq. discriminate.
Qed.
End ListingFacts.

Lemma no_such_id (i j : string) : j <> i -> (j =? i)%string = false.
Proof. apply String.eqb_neq. Qed.

(** X8: an identifier no stored document has gives 404 and no write:
    [get_product] and [get_blog_post] for anyone, [purchase_product] for
    an authenticated caller, [approve_topup] and [reject_topup] for an
    administrator (the guards of the route come first). *)
Theorem unknown_ids_not_found env db :
  (forall i, (forall p, In p (products db) -> Product.id p <> i) ->
     get_product i db
     = (Raise (mkHTTPException 404 "Product not found"), db)) /\
  (forall i, (forall p, In p (blog_posts db) -> BlogPost.id p <> i) ->
     get_blog_post i db
     = (Raise (mkHTTPException 404 "Blog post not found"), db)) /\
  (forall i c u, authenticates env c db u ->
     (forall p, In p (products db) -> Product.id p <> i) ->
     purchase_product env i c db
     = (Raise (mkHTTPException 404 "Product not found"), db)) /\
  (forall i notes c u, authenticates env c db u -> User.is_admin u = true ->
     (forall r, In r (topup_requests db) -> TopUpRequest.id r <> i) ->
     approve_topup env i notes c db
     = (Raise (mkHTTPException 404 "Request not found"), db)) /\
  (forall i notes c u, authenticates env c db u -> User.is_admin u = true ->
     (forall r, In r (topup_requests db) -> TopUpRequest.id r <> i) ->
     reject_topup env i notes c db
     = (Raise (mkHTTPException 404 "Request not found"), db)).
Proof.
  repeat split.
  - intros i Hi. unfold get_product, bind, query.
    rewrite find_one_nobody; [reflexivity|].
    intros p Hp. now apply no_such_id, Hi.
  - intros i Hi. unfold get_blog_post, bind, query.
    rewrite find_one_nobody; [reflexivity|].
    intros p Hp. now apply no_such_id, Hi.
  - intros i c u Hu Hi. unfold purchase_product.
    rewrite (bind_authenticated _ Hu). unfold bind, query.
    rewrite find_one_nobody; [reflexivity|].
    intros p Hp. now apply no_such_id, Hi.
  - intros i notes c u Hu Ha Hi. unfold approve_topup.
    rewrite (bind_admin _ Hu Ha). unfold bind, query.
    rewrite find_one_nobody; [reflexivity|].
    intros r Hr. now apply no_such_id, Hi.
  - intros i notes c u Hu Ha Hi. unfold reject_topup.
    rewrite (bind_admin _ Hu Ha). unfold bind, query.
    rewrite find_one_nobody; [reflexivity|].
    intros r Hr. now apply no_such_id, Hi.
Qed.

(** On the sample run nothing is stored under [id-9]: the product is
    not found, and the administrator finds no request to approve. *)
Lemma unknown_ids_not_found_witness :
  get_product "id-9" db_funded
  = (Raise (mkHTTPException 404 "Product not found"), db_funded) /\
  approve_topup (sample_env 5) "id-9" None root_token db_funded
  = (Raise (mkHTTPException 404 "Request not found"), db_funded).
Proof.
  destruct (@unknown_ids_not_found (sample_env 5) db_funded)
    as (Hproduct & _ & _ & Happrove & _).
  split.
  - apply Hproduct. intros p Hp. vm_compute in Hp.
    destruct Hp as [<-|[]]. discriminate.
  - apply Happrove with (u := root_user).
    + vm_compute. reflexivity.
    + reflexivity.
    + intros r Hr. vm_compute in Hr. destruct Hr as [<-|[]]. discriminate.
Defined.

(** X9: the three listings of a caller's own records (top-up requests,
    purchases, tickets) return at most a hundred documents, each stored
    and carrying the caller's id, never another user's; a caller with
    at most a hundred such documents gets all of them. *)
Theorem own_listings_show_own_records env credentials db u :
  authenticates env credentials db u ->
  (exists l,
     get_user_topup_requests env credentials db = (Return l, db) /\
     length l <= 100 /\
     (forall r, In r l ->
        In r (topup_requests db) /\ TopUpRequest.user_id r = User.id u) /\
     (length (Mongo.find (request_by_user (User.id u)) (topup_requests db))
      <= 100 ->
      forall r, In r (topup_requests db) ->
        TopUpRequest.user_id r = User.id u -> In r l)) /\
  (exists l,
     get_user_purchases env credentials db = (Return l, db) /\
     length l <= 100 /\
     (forall p, In p l ->
        In p (purchases db) /\ Purchase.user_id p = User.id u) /\
     (length (Mongo.find (purchase_by_user (User.id u)) (purchases db))
      <= 100 ->
      forall p, In p (purchases db) ->
        Purchase.user_id p = User.id u -> In p l)) /\
  (exists l,
     get_user_tickets env credentials db = (Return l, db) /\
     length l <= 100 /\
     (forall t, In t l ->
        In t (tickets db) /\ SupportTicket.user_id t = User.id u) /\
     (length (Mongo.find (ticket_by_user (User.id u)) (tickets db))
      <= 100 ->
      forall t, In t (tickets db) ->
        SupportTicket.user_id t = User.id u -> In t l)).
Proof.
  intros Hu. split; [|split];
    unfold get_user_topup_requests, get_user_purchases, get_user_tickets;
    rewrite (bind_authenticated _ Hu); unfold query;
    (eexists; split; [reflexivity|]);
    (split; [apply listing_bounded|]);
    (split;
     [ intros x Hx; apply listing_sound in Hx as [Hin Hq]; split; trivial;
       now apply String.eqb_eq in Hq
     | intros Hn x Hin Hid; apply listing_complete; trivial;
       now apply String.eqb_eq ]).
Qed.

(** The customer of the sample run sees the own request and no
    purchase yet. *)
Lemma own_listings_show_own_records_witness :
  authenticates (sample_env 5) bob_token db_funded bob_funded /\
  get_user_topup_requests (sample_env 5) bob_token db_funded
  = (Return [topup_approved], db_funded) /\
  get_user_purchases (sample_env 5) bob_token db_funded = (Return [], db_funded).
Proof.
  assert (Hu : authenticates (sample_env 5) bob_token db_funded bob_funded)
    by (vm_compute; reflexivity).
  split; [exact Hu|].
  destruct (@own_listings_show_own_records (sample_env 5) bob_token db_funded
              bob_funded Hu)
    as ((l & Hl & _) & (l' & Hl' & _) & _).
  split.
  - rewrite Hl. f_equal. f_equal.
    assert (E : fst (get_user_topup_requests (sample_env 5) bob_token
                       db_funded) = Return [topup_approved])
      by (vm_compute; reflexivity).
    rewrite Hl in E. now injection E.
  - rewrite Hl'. f_equal. f_equal.
    assert (E : fst (get_user_purchases (sample_env 5) bob_token db_funded)
                = Return [])
      by (vm_compute; reflexivity).
    rewrite Hl' in E. now injection E.
Defined.

(** ** Creating a document and reading it back *)

Section InsertFacts.
Variable D : Type.
Implicit Types (q : D -> bool) (c : list D) (d : D).

Lemma listing_after_insert n q d c :
  q d = true -> length (Mongo.find q c) < n ->
  Mongo.to_list n (Mongo.find q (Mongo.insert_one d c)) = Mongo.find q c ++ [d].
Proof.
  intros Hq Hn. rewrite find_insert_one_match by exact Hq.
  apply to_list_all. rewrite length_app. simpl. lia.
Qed.

Lemma listing_after_insert_full n q d c :
  n <= length (Mongo.find q c) ->
  Mongo.to_list n (Mongo.find q (Mongo.insert_one d c))
  = Mongo.to_list n (Mongo.find q c).
Proof.
  intros Hn. unfold Mongo.to_list, Mongo.find, Mongo.insert_one.
  rewrite filter_app, firstn_app.
  replace (n - length (filter q c)) with 0 by (unfold Mongo.find in Hn; lia).
  simpl. apply app_nil_r.
Qed.

Lemma find_one_insert_fresh q d c :
  (forall x, In x c -> q x = false) -> q d = true ->
  Mongo.find_one q (Mongo.insert_one d c) = Some d.
Proof.
  intros Hc Hq. rewrite find_one_insert_one, (find_one_nobody q c Hc).
  now rewrite Hq.
Qed.

Lemma find_one_insert_kept q d c x :
  Mongo.find_one q c = Some x ->
  Mongo.find_one q (Mongo.insert_one d c) = Some x.
Proof. intros H. now rewrite find_one_insert_one, H. Qed.
End InsertFacts.

Lemma request_topup_returns env body credentials db u :
  authenticates env credentials db u ->
  request_topup env body credentials db =
  (Return ("Top-up request submitted successfully", uuid4 env),
   set_topup_requests
     (Mongo.insert_one (new_topup_request env (User.id u) body)) db).
Proof.
  intros Hu. unfold request_topup. now rewrite (bind_authenticated _ Hu).
Qed.

Lemma authenticates_same_users env credentials db db' u :
  authenticates env credentials db u -> users db' = users db ->
  authenticates env credentials db' u.
Proof.
  intros Hu Hus. apply authenticates_after with (1 := Hu).
  intros email. now rewrite Hus.
Qed.

(** X10: what an administrator is shown of a submission.  After a user
    submits a top-up request, [get_all_topup_requests] returns the
    stored requests followed by the new one when fewer than a hundred
    were stored; with a hundred or more stored it returns the first
    hundred, as before, and the new request is not shown. *)
Theorem submitted_request_reaches_admin env body c db u env' c' admin :
  authenticates env c db u ->
  authenticates env' c' db admin ->
  User.is_admin admin = true ->
  (length (topup_requests db) < 100 ->
   get_all_topup_requests env' c' (serve env (PostTopup body c) db)
   = (Return (topup_requests db ++ [new_topup_request env (User.id u) body]),
      serve env (PostTopup body c) db)) /\
  (100 <= length (topup_requests db) ->
   get_all_topup_requests env' c' (serve env (PostTopup body c) db)
   = (Return (firstn 100 (topup_requests db)),
      serve env (PostTopup body c) db)).
Proof.
  intros Hu Hadm Ha. unfold serve. rewrite (request_topup_returns body Hu).
  cbn [snd].
  assert (Hadm' : authenticates env' c'
                    (set_topup_requests
                       (Mongo.insert_one
                          (new_topup_request env (User.id u) body)) db)
                    admin)
    by now apply authenticates_same_users with (1 := Hadm).
  unfold get_all_topup_requests. rewrite (bind_admin _ Hadm' Ha).
  unfold query. cbn [set_topup_requests topup_requests].
  split; intros Hn.
  - rewrite listing_after_insert; trivial.
    + now rewrite find_everything.
    + now rewrite find_everything.
  - rewrite listing_after_insert_full by now rewrite find_everything.
    now rewrite find_everything.
Qed.

(** On the sample run the administrator sees the customer's request. *)
Lemma submitted_request_reaches_admin_witness :
  authenticates (sample_env 3) bob_token db_registered bob_pending /\
  authenticates (sample_env 4) root_token db_registered root_user /\
  get_all_topup_requests (sample_env 4) root_token db_pending
  = (Return [topup_pending], db_pending).
Proof.
  assert (Hu : authenticates (sample_env 3) bob_token db_registered
                 bob_pending)
    by (vm_compute; reflexivity).
  assert (Hadm : authenticates (sample_env 4) root_token db_registered
                   root_user)
    by (vm_compute; reflexivity).
  split; [exact Hu|]. split; [exact Hadm|].
  destruct (@submitted_request_reaches_admin (sample_env 3)
              (TopUpCreate.Build 50%float "receipt.png") bob_token
              db_registered bob_pending (sample_env 4) root_token root_user
              Hu Hadm eq_refl) as [Hshown _].
  assert (Hn : length (topup_requests db_registered) < 100)
    by (vm_compute; lia).
  exact (Hshown Hn).
Defined.

(** X11: a product an administrator creates is stored active under the
    identifier drawn and, when no stored product has that identifier, is
    what [get_product] returns for it; products stored before are
    returned as before.  [get_products] lists it after the active
    products when these were fewer than a hundred, and does not list it
    when they were a hundred or more. *)
Theorem created_product_is_fetched env body c db admin :
  authenticates env c db admin ->
  User.is_admin admin = true ->
  (forall p, In p (products db) -> Product.id p <> uuid4 env) ->
  exists db',
    create_product env body c db = (Return (new_product env body), db') /\
    products db' = products db ++ [new_product env body] /\
    Product.is_active (new_product env body) = true /\
    Product.price (new_product env body) = ProductCreate.price body /\
    get_product (uuid4 env) db' = (Return (new_product env body), db') /\
    (forall i p, stored_product db i p -> stored_product db' i p) /\
    (length (Mongo.find Product.is_active (products db)) < 100 ->
     get_products db'
     = (Return (Mongo.find Product.is_active (products db)
                ++ [new_product env body]), db')) /\
    (100 <= length (Mongo.find Product.is_active (products db)) ->
     get_products db'
     = (Return (firstn 100 (Mongo.find Product.is_active (products db))),
        db')).
Proof.
  intros Hu Ha Hfresh.
  exists (set_products (Mongo.insert_one (new_product env body)) db).
  split.
  { unfold create_product. now rewrite (bind_admin _ Hu Ha). }
  split; [reflexivity|]. split; [reflexivity|]. split; [reflexivity|].
  split.
  { unfold get_product, bind, query. cbn [set_products products].
    rewrite find_one_insert_fresh; trivial.
    - intros p Hp. now apply no_such_id, Hfresh.
    - apply String.eqb_refl. }
  split.
  { intros i p Hp. unfold stored_product in *. cbn [set_products products].
    now apply find_one_insert_kept. }
  unfold get_products, query. cbn [set_products products].
  split; intros Hn.
  - now rewrite listing_after_insert.
  - now rewrite listing_after_insert_full.
Qed.

(** The administrator of the sample run lists a second product. *)
Lemma created_product_is_fetched_witness :
  authenticates (sample_env 5) root_token db_funded root_user /\
  exists db',
    create_product (sample_env 5) (ebook 2%float) root_token db_funded
    = (Return (new_product (sample_env 5) (ebook 2%float)), db') /\
    get_product "id-5" db'
    = (Return (new_product (sample_env 5) (ebook 2%float)), db') /\
    get_products db'
    = (Return [ebook_listed; new_product (sample_env 5) (ebook 2%float)], db').
Proof.
  assert (Hu : authenticates (sample_env 5) root_token db_funded root_user)
    by (vm_compute; reflexivity).
  assert (Hfresh : forall p, In p (products db_funded) ->
                             Product.id p <> uuid4 (sample_env 5)).
  { intros p Hp. vm_compute in Hp. destruct Hp as [<-|[]]. discriminate. }
  split; [exact Hu|].
  destruct (@created_product_is_fetched (sample_env 5) (ebook 2%float)
              root_token db_funded root_user Hu eq_refl Hfresh)
    as (db' & Hret & _ & _ & _ & Hget & _ & Hlist & _).
  exists db'. split; [exact Hret|]. split; [exact Hget|].
  rewrite Hlist; [reflexivity|]. vm_compute. lia.
Defined.

(** X12: a blog post an administrator creates is stored published with
    the administrator's id as author and, when no stored post has the
    identifier drawn, is what [get_blog_post] returns for it to anyone;
    [get_blog_posts] lists it after the published posts when these were
    fewer than a hundred, and does not list it otherwise. *)
Theorem created_post_is_served env body c db admin :
  authenticates env c db admin ->
  User.is_admin admin = true ->
  (forall p, In p (blog_posts db) -> BlogPost.id p <> uuid4 env) ->
  exists db' post,
    create_blog_post env body c db = (Return post, db') /\
    post = BlogPost.Build (uuid4 env) (BlogPostCreate.title body)
             (BlogPostCreate.content body) (User.id admin) (utcnow env) true /\
    blog_posts db' = blog_posts db ++ [post] /\
    get_blog_post (uuid4 env) db' = (Return post, db') /\
    (length (Mongo.find BlogPost.is_published (blog_posts db)) < 100 ->
     get_blog_posts db'
     = (Return (Mongo.find BlogPost.is_published (blog_posts db) ++ [post]),
        db')) /\
    (100 <= length (Mongo.find BlogPost.is_published (blog_posts db)) ->
     get_blog_posts db'
     = (Return (firstn 100 (Mongo.find BlogPost.is_published (blog_posts db))),
        db')).
Proof.
  intros Hu Ha Hfresh.
  exists (set_blog_posts
            (Mongo.insert_one (new_blog_post env (User.id admin) body)) db),
         (new_blog_post env (User.id admin) body).
  split.
  { unfold create_blog_post. now rewrite (bind_admin _ Hu Ha). }
  split; [reflexivity|]. split; [reflexivity|].
  split.
  { unfold get_blog_post, bind, query. cbn [set_blog_posts blog_posts].
    rewrite find_one_insert_fresh; trivial.
    - intros p Hp. now apply no_such_id, Hfresh.
    - apply String.eqb_refl. }
  unfold get_blog_posts, query. cbn [set_blog_posts blog_posts].
  split; intros Hn.
  - now rewrite listing_after_insert.
  - now rewrite listing_after_insert_full.
Qed.

(** The administrator of the sample run writes the first post. *)
Lemma created_post_is_served_witness :
  authenticates (sample_env 5) root_token db_funded root_user /\
  exists db' post,
    create_blog_post (sample_env 5) (BlogPostCreate.Build "Hello" "Welcome")
      root_token db_funded = (Return post, db') /\
    BlogPost.author_id post = "id-0" /\
    get_blog_post "id-5" db' = (Return post, db') /\
    get_blog_posts db' = (Return [post], db').
Proof.
  assert (Hu : authenticates (sample_env 5) root_token db_funded root_user)
    by (vm_compute; reflexivity).
  assert (Hfresh : forall p, In p (blog_posts db_funded) ->
                             BlogPost.id p <> uuid4 (sample_env 5))
    by (intros p Hp; vm_compute in Hp; contradiction).
  split; [exact Hu|].
  destruct (@created_post_is_served (sample_env 5)
              (BlogPostCreate.Build "Hello" "Welcome") root_token db_funded
              root_user Hu eq_refl Hfresh)
    as (db' & post & Hret & -> & _ & Hget & Hlist & _).
  eexists db', _. split; [exact Hret|]. split; [reflexivity|].
  split; [exact Hget|].
  rewrite Hlist; [reflexivity|]. vm_compute. lia.
Defined.

(** X13: a ticket a caller creates is stored open, without responses and
    with the caller's id; the caller's [get_user_tickets] then returns
    it after the caller's earlier tickets when these were fewer than a
    hundred; no user's data changes. *)
Theorem created_ticket_is_listed env body c db u :
  authenticates env c db u ->
  exists db' ticket,
    create_ticket env body c db = (Return ticket, db') /\
    ticket = SupportTicket.Build (uuid4 env) (User.id u)
               (TicketCreate.subject body) (TicketCreate.message body)
               "open" (utcnow env) [] /\
    tickets db' = tickets db ++ [ticket] /\
    users db' = users db /\
    (length (Mongo.find (ticket_by_user (User.id u)) (tickets db)) < 100 ->
     get_user_tickets env c db'
     = (Return (Mongo.find (ticket_by_user (User.id u)) (tickets db)
                ++ [ticket]), db')).
Proof.
  intros Hu.
  exists (set_tickets (Mongo.insert_one (new_ticket env (User.id u) body)) db),
         (new_ticket env (User.id u) body).
  split.
  { unfold create_ticket. now rewrite (bind_authenticated _ Hu). }
  split; [reflexivity|]. split; [reflexivity|]. split; [reflexivity|].
  intros Hn.
  assert (Hu' : authenticates env c
                  (set_tickets
                     (Mongo.insert_one (new_ticket env (User.id u) body)) db)
                  u)
    by now apply authenticates_same_users with (1 := Hu).
  unfold get_user_tickets. rewrite (bind_authenticated _ Hu').
  unfold query. cbn [set_tickets tickets].
  rewrite listing_after_insert; trivial.
  unfold ticket_by_user. cbn [new_ticket SupportTicket.user_id].
  apply String.eqb_refl.
Qed.

(** The customer of the sample run opens a ticket. *)
Lemma created_ticket_is_listed_witness :
  authenticates (sample_env 5) bob_token db_funded bob_funded /\
  exists db' ticket,
    create_ticket (sample_env 5) (TicketCreate.Build "Download" "Link broken")
      bob_token db_funded = (Return ticket, db') /\
    SupportTicket.status ticket = "open" /\
    get_user_tickets (sample_env 5) bob_token db' = (Return [ticket], db').
Proof.
  assert (Hu : authenticates (sample_env 5) bob_token db_funded bob_funded)
    by (vm_compute; reflexivity).
  split; [exact Hu|].
  destruct (@created_ticket_is_listed (sample_env 5)
              (TicketCreate.Build "Download" "Link broken") bob_token
              db_funded bob_funded Hu)
    as (db' & ticket & Hret & -> & _ & _ & Hlist).
  eexists db', _. split; [exact Hret|]. split; [reflexivity|].
  rewrite Hlist; [reflexivity|]. vm_compute. lia.
Defined.

(** ** What no request changes *)

Lemma find_all_match (D : Type) (q : D -> bool) c :
  (forall d, In d c -> q d = true) -> Mongo.find q c = c.
Proof.
  unfold Mongo.find. induction c as [|x c IH]; simpl; [reflexivity|].
  intros H. rewrite (H x (or_introl eq_refl)). f_equal.
  apply IH. intros d Hd. apply H. now right.
Qed.

Lemma in_insert_one (D : Type) (d x : D) c :
  In x (Mongo.insert_one d c) -> In x c \/ x = d.
Proof.
  unfold Mongo.insert_one. intros H.
  apply in_app_or in H as [H|[H|[]]]; auto.
Qed.

Lemma in_update_one (D : Type) (q : D -> bool) upd c x :
  In x (Mongo.update_one q upd c) ->
  In x c \/ exists d, In d c /\ q d = true /\ x = upd d.
Proof.
  induction c as [|y c IH]; simpl; [contradiction|].
  destruct (q y) eqn:E; simpl.
  - intros [<-|H]; [right; exists y; auto | left; now right].
  - intros [<-|H]; [left; now left|].
    destruct (IH H) as [H'|(d & Hd & Hq & ->)]; [left; now right|].
    right. exists d. auto.
Qed.

Lemma defaults_kept_serve env req db :
  defaults_kept db -> defaults_kept (serve env req db).
Proof.
  intros (Hp & Hb & Ht).
  destruct (serve_writes env req db)
    as [req|body Hnone|body c|body c u Hu|request_id notes c r Hr Hs Hret
       |request_id notes c r Hr Hs|product_id c u p Hu Hpr Hlt
       |body c u|body c u];
    (split; [|split]);
    cbn [mark_processed credit_wallet set_users set_products set_purchases
         set_topup_requests set_tickets set_blog_posts
         products blog_posts tickets];
    intros x Hx; try (apply in_insert_one in Hx as [Hx| ->]);
    first [ now apply Hp | now apply Hb | now apply Ht
          | split; reflexivity | reflexivity ].
Qed.

Lemma defaults_kept_run trace db :
  defaults_kept db -> defaults_kept (run trace db).
Proof.
  revert db. induction trace as [|[env req] trace IH]; intros db H; simpl.
  - exact H.
  - now apply IH, defaults_kept_serve.
Qed.

(** X14: no route deactivates a product, unpublishes a post or touches
    a ticket.  Along every run from the empty database each product is
    active, each post published and each ticket open without responses;
    so the filter of the two public listings drops nothing: with at
    most a hundred documents stored they return the whole collection. *)
Theorem defaults_are_never_changed trace :
  (forall p, In p (products (run trace empty_db)) ->
     Product.is_active p = true) /\
  (forall p, In p (blog_posts (run trace empty_db)) ->
     BlogPost.is_published p = true) /\
  (forall t, In t (tickets (run trace empty_db)) ->
     SupportTicket.status t = "open" /\ SupportTicket.responses t = []) /\
  (length (products (run trace empty_db)) <= 100 ->
   get_products (run trace empty_db)
   = (Return (products (run trace empty_db)), run trace empty_db)) /\
  (length (blog_posts (run trace empty_db)) <= 100 ->
   get_blog_posts (run trace empty_db)
   = (Return (blog_posts (run trace empty_db)), run trace empty_db)).
Proof.
  assert (H : defaults_kept (run trace empty_db)).
  { apply defaults_kept_run. split; [|split]; intros x []. }
  destruct H as (Hp & Hb & Ht).
  split; [exact Hp|]. split; [exact Hb|]. split; [exact Ht|].
  split; intros Hn; unfold get_products, get_blog_posts, query;
    rewrite find_all_match by assumption; now rewrite to_list_all.
Qed.

Lemma request_state_ok_serve env req db :
  (forall r, In r (topup_requests db) -> request_state_ok r) ->
  forall r, In r (topup_requests (serve env req db)) -> request_state_ok r.
Proof.
  intros Hok.
  destruct (serve_writes env req db)
    as [req|body Hnone|body c|body c u Hu|request_id notes c r0 Hr Hs Hret
       |request_id notes c r0 Hr Hs|product_id c u p Hu Hpr Hlt
       |body c u|body c u];
    cbn [mark_processed credit_wallet set_users set_products set_purchases
         set_topup_requests set_tickets set_blog_posts topup_requests];
    trivial; intros r Hin.
  - apply in_insert_one in Hin as [Hin| ->]; [now apply Hok|].
    left. repeat split.
  - apply in_update_one in Hin as [Hin|(d & Hd & _ & ->)]; [now apply Hok|].
    right. left. split; [reflexivity|]. now exists (utcnow env).
  - apply in_update_one in Hin as [Hin|(d & Hd & _ & ->)]; [now apply Hok|].
    right. right. split; [reflexivity|].
    split; [now exists (utcnow env) | now exists notes].
Qed.

(** X15: the life of a top-up request.  Along every run from the empty
    database each stored request is pending with neither [processed_at]
    nor [admin_notes], or approved with a [processed_at], or rejected
    with a [processed_at] and a note; no other status is ever stored. *)
Theorem topup_requests_have_three_states trace r :
  In r (topup_requests (run trace empty_db)) ->
  (TopUpRequest.status r = "pending" /\
   TopUpRequest.processed_at r = None /\ TopUpRequest.admin_notes r = None) \/
  (TopUpRequest.status r = "approved" /\
   exists t, TopUpRequest.processed_at r = Some t) \/
  (TopUpRequest.status r = "rejected" /\
   (exists t, TopUpRequest.processed_at r = Some t) /\
   exists n, TopUpRequest.admin_notes r = Some n).
Proof.
  assert (H : forall db,
             (forall r, In r (topup_requests db) -> request_state_ok r) ->
             forall r, In r (topup_requests (run trace db)) ->
                       request_state_ok r).
  { induction trace as [|[env req] trace IH]; intros db Hok; simpl.
    - exact Hok.
    - apply IH. now apply request_state_ok_serve. }
  apply (H empty_db). intros x [].
Qed.

(** After the sample run the customer's two requests are approved. *)
Lemma topup_requests_have_three_states_witness :
  In topup_approved (topup_requests (run exact_trace empty_db)) /\
  TopUpRequest.status topup_approved = "approved".
Proof.
  assert (Hin : In topup_approved (topup_requests (run exact_trace empty_db)))
    by (vm_compute; left; reflexivity).
  split; [exact Hin|].
  destruct (@topup_requests_have_three_states exact_trace topup_approved Hin)
    as [(Hs & _)|[(Hs & _)|(Hs & _)]];
    first [exact Hs | discriminate Hs].
Defined.

(** *** Collections only grow *)

Lemma extends_refl (A : Type) (l : list A) : extends l l.
Proof. exists []. now rewrite app_nil_r. Qed.

Lemma extends_trans (A : Type) (l1 l2 l3 : list A) :
  extends l1 l2 -> extends l2 l3 -> extends l1 l3.
Proof.
  intros [t ->] [t' ->]. exists (t ++ t'). now rewrite app_assoc.
Qed.

Lemma extends_insert_one (A : Type) (d : A) l :
  extends l (Mongo.insert_one d l).
Proof. now exists [d]. Qed.

Lemma extends_map (A B : Type) (f : A -> B) l l' :
  extends l l' -> extends (map f l) (map f l').
Proof. intros [t ->]. exists (map f t). apply map_app. Qed.

(** The six things a request can only add to. *)
Lemma grows_serve env req db :
  extends (products db) (products (serve env req db)) /\
  extends (purchases db) (purchases (serve env req db)) /\
  extends (tickets db) (tickets (serve env req db)) /\
  extends (blog_posts db) (blog_posts (serve env req db)) /\
  extends (map submission_of (topup_requests db))
          (map submission_of (topup_requests (serve env req db))) /\
  extends (map identity_of (users db))
          (map identity_of (users (serve env req db))).
Proof.
  destruct (serve_writes env req db)
    as [req|body Hnone|body c|body c u Hu|request_id notes c r0 Hr Hs Hret
       |request_id notes c r0 Hr Hs|product_id c u p Hu Hpr Hlt
       |body c u|body c u];
    cbn [mark_processed credit_wallet set_users set_products set_purchases
         set_topup_requests set_tickets set_blog_posts
         users products topup_requests purchases tickets blog_posts];
    rewrite ?(update_one_keeps submission_of), ?(update_one_keeps identity_of)
      by reflexivity;
    repeat split;
    first [ apply extends_refl | apply extends_insert_one
          | apply extends_map, extends_insert_one ].
Qed.

Lemma grows_run trace db :
  extends (products db) (products (run trace db)) /\
  extends (purchases db) (purchases (run trace db)) /\
  extends (tickets db) (tickets (run trace db)) /\
  extends (blog_posts db) (blog_posts (run trace db)) /\
  extends (map submission_of (topup_requests db))
          (map submission_of (topup_requests (run trace db))) /\
  extends (map identity_of (users db))
          (map identity_of (users (run trace db))).
Proof.
  revert db. induction trace as [|[env req] trace IH]; intros db; simpl.
  - repeat split; apply extends_refl.
  - destruct (grows_serve env req db) as (H1 & H2 & H3 & H4 & H5 & H6).
    destruct (IH (serve env req db)) as (I1 & I2 & I3 & I4 & I5 & I6).
    repeat split; eapply extends_trans; eassumption.
Qed.

(** X16: stored records are never deleted, reordered or rewritten.
    Whatever the database and the requests served, the products, the
    purchase records, the tickets and the blog posts afterwards are
    those before with new ones added at the end, and so are the
    top-up requests as far as what was submitted goes (id, user_id,
    amount, receipt, created_at): processing changes only status,
    time and note. *)
Theorem records_are_append_only trace db :
  (exists added, products (run trace db) = products db ++ added) /\
  (exists added, purchases (run trace db) = purchases db ++ added) /\
  (exists added, tickets (run trace db) = tickets db ++ added) /\
  (exists added, blog_posts (run trace db) = blog_posts db ++ added) /\
  (exists added,
     map submission_of (topup_requests (run trace db))
     = map submission_of (topup_requests db) ++ added).
Proof.
  destruct (grows_run trace db) as (H1 & H2 & H3 & H4 & H5 & _).
  repeat split; assumption.
Qed.

(** X17: an account keeps what registration gave it.  Whatever the
    requests served, the stored users afterwards are those before, in
    the same order and with the same id, email, username, password
    hash, [is_admin] flag and creation time, followed by the users
    registered since: no route deletes a user, changes a password or
    grants or revokes [is_admin]; only [wallet_balance] can differ. *)
Theorem accounts_keep_their_identity trace db :
  exists registered,
    map identity_of (users (run trace db))
    = map identity_of (users db) ++ registered.
Proof.
  destruct (grows_run trace db) as (_ & _ & _ & _ & _ & H). exact H.
Qed.

(** X18: the users collection changes in three ways only.  A request
    leaves it as it was, or is a registration that appends the new user
    with a balance of 0.0, or is an approval that adds the amount of a
    stored pending request to the wallet its [user_id] addresses, or is
    a purchase by an authenticated caller that adds the negated price
    of a stored product to the caller's wallet. *)
Theorem users_change_in_three_ways env req db :
  users (serve env req db) = users db \/
  (exists body,
     req = PostRegister body /\
     User.wallet_balance (new_user env body) = 0%float /\
     users (serve env req db) = users db ++ [new_user env body]) \/
  (exists request_id notes c r,
     req = PostApprove request_id notes c /\
     stored_request db request_id r /\
     TopUpRequest.status r = "pending" /\
     users (serve env req db)
     = Mongo.update_one (by_id (TopUpRequest.user_id r))
         (User.inc_wallet_balance (TopUpRequest.amount r)) (users db)) \/
  (exists product_id c u p,
     req = PostPurchase product_id c /\
     authenticates env c db u /\
     stored_product db product_id p /\
     users (serve env req db)
     = Mongo.update_one (by_id (User.id u))
         (User.inc_wallet_balance (- Product.price p)) (users db)).
Proof.
  destruct (serve_writes env req db)
    as [req|body Hnone|body c|body c u Hu|request_id notes c r0 Hr Hs Hret
       |request_id notes c r0 Hr Hs|product_id c u p Hu Hpr Hlt
       |body c u|body c u];
    try (left; reflexivity).
  - right. left. exists body. repeat split.
  - right. right. left. exists request_id, notes, c, r0. repeat split; trivial.
  - right. right. right. exists product_id, c, u, p. repeat split; trivial.
Qed.

(** ** Requests in sequence *)

Lemma stored_user_id db user_id u :
  stored_user db user_id u -> User.id u = user_id.
Proof.
  intros H. apply find_one_some in H as [_ H].
  now apply String.eqb_eq in H.
Qed.

(** X19: an approval shows in the profile.  When an administrator
    approves a pending request of a user, the user's next [get_me]
    (with a token valid before and after) returns the same id, email
    and [is_admin] and a balance that is the old one plus the amount. *)
Theorem approved_topup_shows_in_profile
    env c db admin request_id r notes env' c' u :
  authenticates env c db admin ->
  User.is_admin admin = true ->
  stored_request db request_id r ->
  TopUpRequest.status r = "pending" ->
  authenticates env' c' db u ->
  stored_user db (TopUpRequest.user_id r) u ->
  get_me env' c' db = (Return (user_info u), db) /\
  exists info,
    get_me env' c' (serve env (PostApprove request_id notes c) db)
    = (Return info, serve env (PostApprove request_id notes c) db) /\
    info_wallet_balance info
    = (User.wallet_balance u + TopUpRequest.amount r)%float /\
    info_id info = User.id u /\
    info_email info = User.email u /\
    info_is_admin info = User.is_admin u.
Proof.
  intros Hadm Ha Hr Hs Hu Hst. split.
  { unfold get_me. now rewrite (bind_authenticated _ Hu). }
  exists (user_info (User.inc_wallet_balance (TopUpRequest.amount r) u)).
  split; [|now repeat split].
  unfold serve. rewrite (approve_topup_pending notes Hadm Ha Hr Hs).
  cbn [snd].
  assert (Hu' : authenticates env' c'
                  (mark_processed request_id "approved" (utcnow env) notes
                     (credit_wallet (TopUpRequest.user_id r)
                        (TopUpRequest.amount r) db))
                  (User.inc_wallet_balance (TopUpRequest.amount r) u)).
  { pose proof (stored_user_id Hst) as Hid.
    apply authenticates_same_users
      with (db := credit_wallet (TopUpRequest.user_id r)
                    (TopUpRequest.amount r) db); [|reflexivity].
    rewrite <- Hid in *. now apply authenticates_debited. }
  unfold get_me. now rewrite (bind_authenticated _ Hu').
Qed.

(** On the sample run the customer's profile goes from 0.0 to 50.0. *)
Lemma approved_topup_shows_in_profile_witness :
  get_me (sample_env 4) bob_token db_pending
  = (Return (user_info bob_pending), db_pending) /\
  exists info,
    get_me (sample_env 5) bob_token db_funded = (Return info, db_funded) /\
    info_wallet_balance info = 50%float.
Proof.
  assert (Hadm : authenticates (sample_env 4) root_token db_pending root_user)
    by (vm_compute; reflexivity).
  assert (Hr : stored_request db_pending "id-3" topup_pending)
    by (vm_compute; reflexivity).
  assert (Hu : authenticates (sample_env 5) bob_token db_pending bob_pending)
    by (vm_compute; reflexivity).
  assert (Hst : stored_user db_pending (TopUpRequest.user_id topup_pending)
                  bob_pending)
    by (vm_compute; reflexivity).
  destruct (@approved_topup_shows_in_profile (sample_env 4) root_token
              db_pending root_user "id-3" topup_pending None (sample_env 5)
              bob_token bob_pending Hadm eq_refl Hr eq_refl Hu Hst)
    as (_ & info & Hget & Hbal & _).
  split; [vm_compute; reflexivity|].
  exists info. split; [exact Hget|]. rewrite Hbal. reflexivity.
Defined.

Lemma register_returns env body db :
  (forall u, In u (users db) -> User.email u <> UserCreate.email body) ->
  register env body db =
  (Return (mkAuthResponse (create_access_token env (UserCreate.email body))
             "bearer" (user_info (new_user env body))),
   set_users (Mongo.insert_one (new_user env body)) db).
Proof.
  intros Hfresh. apply find_one_by_email_fresh in Hfresh.
  unfold register, bind, query, update_db, ret. now rewrite Hfresh.
Qed.

(** X20: registering, then logging in.  After a registration with an
    email no stored user had, [login] with the same email returns the
    new user's data (balance 0.0, the [is_admin] asked for) exactly
    when the password context verifies the password given against the
    hash stored at registration, and raises 401 otherwise. *)
Theorem registered_user_can_log_in env body db env' password :
  (forall u, In u (users db) -> User.email u <> UserCreate.email body) ->
  let db' := serve env (PostRegister body) db in
  let attempt := UserLogin.Build (UserCreate.email body) password in
  let hashed := pwd_hash env (UserCreate.password body) in
  (pwd_verify env' password hashed = true ->
   exists resp,
     login env' attempt db' = (Return resp, db') /\
     user resp = user_info (new_user env body) /\
     info_wallet_balance (user resp) = 0%float /\
     info_is_admin (user resp) = UserCreate.is_admin body /\
     forall env'', (utcnow env'' < utcnow env' + hours 24)%Z ->
       authenticates env'' (access_token resp) db' (new_user env body)) /\
  (pwd_verify env' password hashed = false ->
   login env' attempt db'
   = (Raise (mkHTTPException 401 "Incorrect email or password"), db')).
Proof.
  intros Hfresh db' attempt hashed.
  assert (Hdb : db' = set_users (Mongo.insert_one (new_user env body)) db).
  { unfold db', serve. now rewrite (register_returns env body db Hfresh). }
  assert (Hfound : Mongo.find_one (by_email (UserCreate.email body))
                     (users db') = Some (new_user env body)).
  { rewrite Hdb. cbn [set_users users]. apply find_one_insert_fresh.
    - intros u Hu. unfold by_email. now apply no_such_id, Hfresh.
    - unfold by_email. cbn [new_user User.email]. apply String.eqb_refl. }
  clearbody db'. unfold login, attempt, bind, query, verify_password.
  cbn [UserLogin.email UserLogin.password]. rewrite Hfound.
  cbn [new_user User.password_hash]. unfold hash_password, hashed.
  split; intros Hv; rewrite Hv; cbn [negb]; [|reflexivity].
  eexists. split; [reflexivity|]. cbn [user].
  split; [reflexivity|]. split; [reflexivity|]. split; [reflexivity|].
  intros env'' Hexp. apply get_current_user_signed; trivial.
  now apply Z.ltb_lt.
Qed.

(** The customer of the sample run logs in with the password chosen,
    and not with another. *)
Lemma registered_user_can_log_in_witness :
  (exists resp,
     login (sample_env 2) (UserLogin.Build "bob@example.org" "hunter2")
       (serve (sample_env 1) (PostRegister bob_body)
          (serve (sample_env 0) (PostRegister root_body) empty_db))
     = (Return resp,
        serve (sample_env 1) (PostRegister bob_body)
          (serve (sample_env 0) (PostRegister root_body) empty_db)) /\
     info_wallet_balance (user resp) = 0%float) /\
  login (sample_env 2) (UserLogin.Build "bob@example.org" "12345")
    (serve (sample_env 1) (PostRegister bob_body)
       (serve (sample_env 0) (PostRegister root_body) empty_db))
  = (Raise (mkHTTPException 401 "Incorrect email or password"),
     serve (sample_env 1) (PostRegister bob_body)
       (serve (sample_env 0) (PostRegister root_body) empty_db)).
Proof.
  assert (Hfresh : forall u,
             In u (users (serve (sample_env 0) (PostRegister root_body)
                            empty_db)) ->
             User.email u <> UserCreate.email bob_body).
  { intros u Hu. vm_compute in Hu. destruct Hu as [<-|[]]. discriminate. }
  split.
  - destruct (@registered_user_can_log_in (sample_env 1) bob_body _
                (sample_env 2) "hunter2" Hfresh) as [Hgood _].
    destruct (Hgood eq_refl) as (resp & Hret & _ & Hbal & _).
    exists resp. split; [exact Hret | exact Hbal].
  - destruct (@registered_user_can_log_in (sample_env 1) bob_body _
                (sample_env 2) "12345" Hfresh) as [_ Hbad].
    exact (Hbad eq_refl).
Defined.

(** X21: a token lasts twenty-four hours.  For a stored user, the token
    [create_access_token] issues for the user's email authenticates as
    that user at every clock reading before the issue time plus
    86400 seconds and, from then on, is answered with 401 by
    [get_current_user], so by every route that depends on it. *)
Theorem token_lasts_24_hours env env' db u :
  Mongo.find_one (by_email (User.email u)) (users db) = Some u ->
  ((utcnow env' < utcnow env + 86400)%Z ->
   authenticates env' (create_access_token env (User.email u)) db u) /\
  ((utcnow env + 86400 <= utcnow env')%Z ->
   get_current_user env' (create_access_token env (User.email u)) db
   = (Raise unauthorized, db) /\
   get_me env' (create_access_token env (User.email u)) db
   = (Raise unauthorized, db) /\
   (forall product_id,
      purchase_product env' product_id
        (create_access_token env (User.email u)) db
      = (Raise unauthorized, db)) /\
   (forall request_id notes,
      approve_topup env' request_id notes
        (create_access_token env (User.email u)) db
      = (Raise unauthorized, db))).
Proof.
  intros Hu. split.
  - intros Hlt. apply get_current_user_signed; trivial.
    change (hours 24) with 86400%Z. now apply Z.ltb_lt.
  - intros Hge.
    assert (Hexp : get_current_user env'
                     (create_access_token env (User.email u)) db
                   = (Raise unauthorized, db)).
    { unfold get_current_user, create_access_token, jwt_encode, jwt_decode.
      rewrite String.eqb_refl. cbn [exp andb].
      change (hours 24) with 86400%Z.
      replace (utcnow env' <? utcnow env + 86400)%Z with false
        by (symmetry; apply Z.ltb_ge; exact Hge).
      reflexivity. }
    split; [exact Hexp|]. split; [|split]; intros.
    + unfold get_me. now erewrite bind_raises by exact Hexp.
    + unfold purchase_product. now erewrite bind_raises by exact Hexp.
    + unfold approve_topup, get_admin_user.
      erewrite bind_raises; [reflexivity|].
      now erewrite bind_raises by exact Hexp.
Qed.

(** The customer's token of second 1 works at second 5 and no longer
    24 hours after it was issued. *)
Lemma token_lasts_24_hours_witness :
  authenticates (sample_env 5) bob_token db_funded bob_funded /\
  get_me (day_later (sample_env 1)) bob_token db_funded
  = (Raise unauthorized, db_funded).
Proof.
  assert (Hu : Mongo.find_one (by_email (User.email bob_funded))
                 (users db_funded) = Some bob_funded)
    by (vm_compute; reflexivity).
  split.
  - destruct (@token_lasts_24_hours (sample_env 1) (sample_env 5) db_funded
                bob_funded Hu) as [Hvalid _].
    apply Hvalid. vm_compute. reflexivity.
  - destruct (@token_lasts_24_hours (sample_env 1) (day_later (sample_env 1))
                db_funded bob_funded Hu) as [_ Hexpired].
    apply Hexpired. vm_compute. discriminate.
Defined.

Lemma find_one_update_one_kept (D : Type) (q q' : D -> bool) upd c d :
  (forall x, q' (upd x) = q' x) ->
  Mongo.find_one q' c = Some d ->
  exists d',
    Mongo.find_one q' (Mongo.update_one q upd c) = Some d' /\
    (d' = d \/ d' = upd d).
Proof.
  intros Hq'. unfold Mongo.find_one.
  induction c as [|x c IH]; simpl; [discriminate|].
  destruct (q x) eqn:Eq, (q' x) eqn:Eq'; simpl.
  - intros [= ->]. rewrite Hq', Eq'. eauto.
  - intros H. rewrite Hq', Eq'. exists d. auto.
  - intros [= ->]. rewrite Eq'. eauto.
  - rewrite Eq'. exact IH.
Qed.

(** Who authenticated before a wallet was credited still does, with the
    same [is_admin] flag. *)
Lemma authenticates_after_credit env credentials db u user_id delta :
  authenticates env credentials db u ->
  exists u',
    authenticates env credentials (credit_wallet user_id delta db) u' /\
    User.is_admin u' = User.is_admin u /\ User.id u' = User.id u.
Proof.
  intros Hu. apply get_current_user_returns in Hu as Hfound.
  destruct Hfound as (_ & claims & email & Hdec & Hsub & Hfound).
  destruct (@find_one_update_one_kept _ (by_id user_id) (by_email email)
              (User.inc_wallet_balance delta) (users db) u
              (fun x => inc_wallet_balance_keeps_email delta x email) Hfound)
    as (u' & Hfound' & Hcase).
  exists u'. split.
  - unfold authenticates, get_current_user. rewrite Hdec, Hsub.
    unfold bind, query. cbn [credit_wallet set_users users].
    now rewrite Hfound'.
  - destruct Hcase as [-> | ->]; auto.
Qed.

(** X22: a request is processed once.  After an administrator has
    approved or rejected a pending request, every further approval or
    rejection of it by an administrator raises 400 and writes nothing:
    the amount is credited at most once, and a rejected request can no
    longer be approved. *)
Theorem topup_is_processed_once
    env c db admin request_id r env' c' admin' :
  authenticates env c db admin ->
  User.is_admin admin = true ->
  stored_request db request_id r ->
  TopUpRequest.status r = "pending" ->
  authenticates env' c' db admin' ->
  User.is_admin admin' = true ->
  forall first,
    (exists notes, first = PostApprove request_id notes c) \/
    (exists notes, first = PostReject request_id notes c) ->
    (forall notes,
       approve_topup env' request_id notes c' (serve env first db)
       = (Raise already_processed, serve env first db)) /\
    (forall notes,
       reject_topup env' request_id notes c' (serve env first db)
       = (Raise already_processed, serve env first db)).
Proof.
  intros Hadm Ha Hr Hs Hadm' Ha' first Hfirst.
  assert (H : exists admin'' r',
             authenticates env' c' (serve env first db) admin'' /\
             User.is_admin admin'' = true /\
             stored_request (serve env first db) request_id r' /\
             TopUpRequest.status r' <> "pending").
  { destruct Hfirst as [[notes ->]|[notes ->]]; unfold serve.
    - rewrite (approve_topup_pending notes Hadm Ha Hr Hs). cbn [snd].
      destruct (authenticates_after_credit (TopUpRequest.user_id r)
                  (TopUpRequest.amount r) Hadm') as (a & Hauth & Hadmin & _).
      exists a, (TopUpRequest.set_processed "approved" (utcnow env) notes r).
      split; [now apply authenticates_same_users with (1 := Hauth)|].
      split; [congruence|].
      split; [now apply mark_processed_same|]. discriminate.
    - rewrite (reject_topup_pending notes Hadm Ha Hr Hs). cbn [snd].
      exists admin',
        (TopUpRequest.set_processed "rejected" (utcnow env) (Some notes) r).
      split; [now apply authenticates_same_users with (1 := Hadm')|].
      split; [exact Ha'|].
      split; [now apply mark_processed_same|]. discriminate. }
  destruct H as (admin'' & r' & Hauth & Hadmin & Hr' & Hs').
  split; intros notes.
  - unfold approve_topup. rewrite (bind_admin _ Hauth Hadmin).
    unfold bind at 1, query. unfold stored_request in Hr'. rewrite Hr'.
    now apply processed_request_refused.
  - unfold reject_topup. rewrite (bind_admin _ Hauth Hadmin).
    unfold bind at 1, query. unfold stored_request in Hr'. rewrite Hr'.
    now apply processed_request_refused.
Qed.

(** On the sample run a second approval of [id-3], a second later, is
    refused. *)
Lemma topup_is_processed_once_witness :
  authenticates (sample_env 4) root_token db_pending root_user /\
  stored_request db_pending "id-3" topup_pending /\
  approve_topup (sample_env 5) "id-3" None root_token db_funded
  = (Raise already_processed, db_funded).
Proof.
  assert (Hadm : authenticates (sample_env 4) root_token db_pending root_user)
    by (vm_compute; reflexivity).
  assert (Hadm' : authenticates (sample_env 5) root_token db_pending
                    root_user)
    by (vm_compute; reflexivity).
  assert (Hr : stored_request db_pending "id-3" topup_pending)
    by (vm_compute; reflexivity).
  split; [exact Hadm|]. split; [exact Hr|].
  destruct (@topup_is_processed_once (sample_env 4) root_token db_pending
              root_user "id-3" topup_pending (sample_env 5) root_token
              root_user Hadm eq_refl Hr eq_refl Hadm' eq_refl
              (PostApprove "id-3" None root_token)
              (or_introl (ex_intro _ None eq_refl)))
    as [Happrove _].
  exact (Happrove None).
Defined.

(** X23: the token of a registration opens the new profile.  After a
    registration with an email no stored user had, the token in the
    response authenticates as the new user until 24 hours after the
    registration, and [get_me] with it returns what the registration
    response carried: the id drawn, the email and username given, a
    balance of 0.0 and the [is_admin] asked for. *)
Theorem registration_token_opens_profile env body db env' :
  (forall u, In u (users db) -> User.email u <> UserCreate.email body) ->
  (utcnow env' < utcnow env + 86400)%Z ->
  exists resp,
    register env body db = (Return resp, serve env (PostRegister body) db) /\
    token_type resp = "bearer" /\
    authenticates env' (access_token resp) (serve env (PostRegister body) db)
      (new_user env body) /\
    get_me env' (access_token resp) (serve env (PostRegister body) db)
    = (Return (user resp), serve env (PostRegister body) db) /\
    info_id (user resp) = uuid4 env /\
    info_email (user resp) = UserCreate.email body /\
    info_username (user resp) = UserCreate.username body /\
    info_wallet_balance (user resp) = 0%float /\
    info_is_admin (user resp) = UserCreate.is_admin body.
Proof.
  intros Hfresh Hlt.
  pose proof (register_returns env body db Hfresh) as Hreg.
  unfold serve. rewrite Hreg. cbn [snd].
  eexists. split; [reflexivity|]. cbn [token_type access_token user].
  split; [reflexivity|].
  assert (Hu : authenticates env' (create_access_token env (UserCreate.email body))
                 (set_users (Mongo.insert_one (new_user env body)) db)
                 (new_user env body)).
  { apply get_current_user_signed.
    - change (hours 24) with 86400%Z. now apply Z.ltb_lt.
    - cbn [set_users users]. apply find_one_insert_fresh.
      + intros u Hin. unfold by_email. now apply no_such_id, Hfresh.
      + unfold by_email. cbn [new_user User.email]. apply String.eqb_refl. }
  split; [exact Hu|].
  split; [unfold get_me; now rewrite (bind_authenticated _ Hu)|].
  repeat split.
Qed.

(** The customer of the sample run reads the profile with the token of
    the registration. *)
Lemma registration_token_opens_profile_witness :
  exists resp,
    register (sample_env 1) bob_body
      (serve (sample_env 0) (PostRegister root_body) empty_db)
    = (Return resp,
       serve (sample_env 1) (PostRegister bob_body)
         (serve (sample_env 0) (PostRegister root_body) empty_db)) /\
    get_me (sample_env 2) (access_token resp)
      (serve (sample_env 1) (PostRegister bob_body)
         (serve (sample_env 0) (PostRegister root_body) empty_db))
    = (Return (user resp),
       serve (sample_env 1) (PostRegister bob_body)
         (serve (sample_env 0) (PostRegister root_body) empty_db)) /\
    info_wallet_balance (user resp) = 0%float.
Proof.
  assert (Hfresh : forall u,
             In u (users (serve (sample_env 0) (PostRegister root_body)
                            empty_db)) ->
             User.email u <> UserCreate.email bob_body).
  { intros u Hu. vm_compute in Hu. destruct Hu as [<-|[]]. discriminate. }
  assert (Hlt : (utcnow (sample_env 2) < utcnow (sample_env 1) + 86400)%Z)
    by (vm_compute; reflexivity).
  destruct (@registration_token_opens_profile (sample_env 1) bob_body _
              (sample_env 2) Hfresh Hlt)
    as (resp & Hreg & _ & _ & Hme & _ & _ & _ & Hbal & _).
  exists resp. split; [exact Hreg|]. split; [exact Hme | exact Hbal].
Defined.
